(** * Vibe Coding System: the pipeline coordinator and its stage executors

    A shallow embedding of [main.py], [agents/frontend.py],
    [agents/backend.py] and [agents/project_manager.py].

    - Python values coming out of [json.loads] are the inductive [value];
      a Python [dict] with string keys is a [gmap string value].
    - A call that may raise returns an [outcome]; code that both mutates
      state and may raise lives in the monad [M], in which the state
      reached before an exception is kept (files already written stay
      written, fields already assigned stay assigned).
    - [progress] is a Python float holding one of the decimal literals
      0.0, 0.1, ..., 1.0; it is modelled by the rational with the same
      decimal expansion, on which the order is the one of the floats. *)

From Stdlib Require Import QArith Ascii String.
From Stdlib Require Import Sorting.Sorted Sorting.Permutation.
From stdpp Require Import gmap strings list fin_maps.

Local Set Warnings "-register-all".
Local Open Scope nat_scope.
Local Open Scope stdpp_scope.

(** ** Python values *)

Inductive value : Type :=
  | VNull
  | VBool (b : bool)
  | VNum (q : Q)
  | VStr (s : string)
  | VList (l : list value)
  | VDict (d : gmap string value).

Abbreviation dict := (gmap string value).

(** Lists and dicts cannot be used as dictionary keys. *)
Definition hashable (v : value) : bool :=
  match v with
  | VList _ | VDict _ => false
  | _ => true
  end.

(** ** Results of calls that may raise *)

Inductive outcome (A : Type) : Type :=
  | Ok (a : A)
  | Raise (msg : string).
Arguments Ok {A} a.
Arguments Raise {A} msg.

Definition is_ok {A} (o : outcome A) : bool :=
  match o with Ok _ => true | Raise _ => false end.

(** State and exceptions: the state survives a raise. *)
Definition M (S A : Type) : Type := S → outcome A * S.

Definition ret {S A} (a : A) : M S A := λ s, (Ok a, s).
Definition raise {S A} (msg : string) : M S A := λ s, (Raise msg, s).
Definition bind {S A B} (m : M S A) (k : A → M S B) : M S B :=
  λ s, match m s with
       | (Ok a, s') => k a s'
       | (Raise msg, s') => (Raise msg, s')
       end.
Definition modify {S} (f : S → S) : M S unit := λ s, (Ok tt, f s).
Definition lift_outcome {S A} (o : outcome A) : M S A := λ s, (o, s).

#[global] Instance M_ret {S} : MRet (M S) := λ A, ret.
#[global] Instance M_bind {S} : MBind (M S) := λ A B k m, bind m k.

(** [for x in l:] with the variables the body updates passed along. *)
Fixpoint for_acc {S A B} (body : B → A → M S B) (l : list A) (acc : B) : M S B :=
  match l with
  | [] => mret acc
  | x :: l' => acc' ← body acc x; for_acc body l' acc'
  end.

(** ** Python string methods used by the agents *)

Module Py.

Definition nl : string := String "010"%char "".

(** [str.isspace] on code points below 256. *)
Definition isspace (c : ascii) : bool :=
  let n := nat_of_ascii c in
  ((9 <=? n)%nat && (n <=? 13)%nat) || ((28 <=? n)%nat && (n <=? 32)%nat)
  || (n =? 133)%nat || (n =? 160)%nat.

Fixpoint lstrip (s : string) : string :=
  match s with
  | EmptyString => EmptyString
  | String c s' => if isspace c then lstrip s' else s
  end.

Definition rstrip (s : string) : string := String.rev (lstrip (String.rev s)).

Definition strip (s : string) : string := rstrip (lstrip s).

Definition startswith (s p : string) : bool := String.prefix p s.

Definition endswith (s p : string) : bool :=
  String.prefix (String.rev p) (String.rev s).

(** [s.split(sep)] for a one-character separator. *)
Fixpoint split (sep : ascii) (s : string) : list string :=
  match s with
  | EmptyString => [EmptyString]
  | String c s' =>
      if Ascii.eqb c sep then EmptyString :: split sep s'
      else match split sep s' with
           | w :: ws => String c w :: ws
           | [] => [String c EmptyString]
           end
  end.

(** [sep.join(l)] *)
Definition join (sep : string) (l : list string) : string := String.concat sep l.

(** [l[1:-1]] *)
Definition slice_1_m1 {A} (l : list A) : list A := removelast (tail l).

End Py.

(** ** Clean-up of generated code ([agents/frontend.py])

    Every generator strips the response, drops the first and last line
    when the text starts and ends with a fence, and then repeats the test
    for each language tag of its list. *)

Definition fence : string := "```".

(** ["\n".join(code.split("\n")[1:-1])] *)
Definition drop_fence_lines (code : string) : string :=
  Py.join Py.nl (Py.slice_1_m1 (Py.split "010"%char code)).

Definition clean_step (opening : string) (code : string) : string :=
  if Py.startswith code opening && Py.endswith code fence
  then drop_fence_lines code else code.

(** The shape shared by [_generate_component], [_generate_page],
    [_generate_styles], [_generate_service], [_generate_generic_files] and
    the [package.json] part of [_create_config_files]: an [if] for the
    bare fence followed by one [if] per language tag. *)
Definition clean_code (langs : list string) (text : string) : string :=
  let code := Py.strip text in
  let code := clean_step fence code in
  fold_left (λ code lang, clean_step (fence +:+ lang) code) langs code.

Definition component_langs : list string :=
  ["jsx"; "vue"; "typescript"; "javascript"; "html"; "css"].

(** [_generate_component], lines 165-175. *)
Definition clean_component_code : string → string := clean_code component_langs.

(** [_create_config_files], lines 476-484. *)
Definition clean_package_json : string → string := clean_code ["json"].

(** [_create_config_files], lines 568-575: the [index.html] response is
    cleaned by an [if]/[elif], so one test at most fires. *)
Definition clean_index_html (text : string) : string :=
  let index_html := Py.strip text in
  if Py.startswith index_html (fence +:+ "html") && Py.endswith index_html fence
  then drop_fence_lines index_html
  else if Py.startswith index_html fence && Py.endswith index_html fence
  then drop_fence_lines index_html
  else index_html.

(** A response whose payload [body] sits in an inner fence tagged [lang],
    itself wrapped in a bare outer fence. *)
Definition fenced (tag body : string) : string :=
  fence +:+ tag +:+ Py.nl +:+ body +:+ Py.nl +:+ fence.

Definition doubly_fenced (lang body : string) : string :=
  fenced "" (fenced lang body).

(** ** [sorted(iterable, key=...)]

    Python computes the key of every element first, in order, and raises
    what the key function raises; the sort itself is stable. *)

Section PySorted.
Context {A : Type}.

Fixpoint decorate (key : A → outcome nat) (l : list A) : outcome (list (nat * A)) :=
  match l with
  | [] => Ok []
  | x :: l' =>
      match key x with
      | Raise msg => Raise msg
      | Ok k =>
          match decorate key l' with
          | Raise msg => Raise msg
          | Ok kl => Ok ((k, x) :: kl)
          end
      end
  end.

(** [x] comes from the left of everything already in [l]: it is put in
    front of the first element whose key is not smaller. *)
Fixpoint insert_stable (x : nat * A) (l : list (nat * A)) : list (nat * A) :=
  match l with
  | [] => [x]
  | y :: l' => if (y.1 <? x.1)%nat then y :: insert_stable x l' else x :: y :: l'
  end.

Definition sort_stable (l : list (nat * A)) : list (nat * A) :=
  foldr insert_stable [] l.

Definition sorted (key : A → outcome nat) (l : list A) : outcome (list A) :=
  match decorate key l with
  | Raise msg => Raise msg
  | Ok kl => Ok (snd <$> sort_stable kl)
  end.

End PySorted.

(** ** Task priorities ([implement_frontend] and [implement_backend], lines 63-67) *)

Abbreviation task := (gmap string value).

Definition priority_map : gmap string nat :=
  <["high" := 0%nat]> (<["medium" := 1%nat]> (<["low" := 2%nat]> ∅)).

(** [priority_map.get(p, 1)]: looking up a list or a dict raises
    [TypeError], any other value that is not a key gives the default. *)
Definition priority_map_get (p : value) : outcome nat :=
  match p with
  | VStr s => Ok (default 1%nat (priority_map !! s))
  | VList _ => Raise "unhashable type: 'list'"
  | VDict _ => Raise "unhashable type: 'dict'"
  | VNull | VBool _ | VNum _ => Ok 1%nat
  end.

(** [lambda t: priority_map.get(t.get("priority", "medium"), 1)] *)
Definition priority_key (t : task) : outcome nat :=
  priority_map_get (default (VStr "medium") (t !! "priority")).

Definition sorted_tasks (tasks : list task) : outcome (list task) :=
  sorted priority_key tasks.

(** The rank of a task whose priority can be looked up. *)
Definition rank (t : task) : nat :=
  match priority_key t with Ok k => k | Raise _ => 1%nat end.

Definition priority_hashable (t : task) : Prop :=
  match t !! "priority" with Some v => hashable v = true | None => True end.

(** ** The file system

    [main.py] and the agents reach the disk through [os.path],
    [os.makedirs] and [shutil.rmtree], on path strings built with
    [os.path.join] from [settings.projects_root_dir] and the project name
    as it was submitted.  The disk maps every existing place, given by the
    names that lead to it from the top directory, to what is there: a
    document or a directory.  A path string is followed name by name as
    the kernel does; symbolic links and permissions are left out. *)

Inductive document : Type :=
  | Json (v : value)
  | Text (s : string).

Inductive node : Type :=
  | File (doc : document)
  | Dir.

Abbreviation path := (list string).
Abbreviation disk := (gmap path node).

(** [settings.projects_root_dir] ([core/config.py], lines 23-24): the
    directory [projects] beside the sources, as an absolute path; the
    sources are taken to be installed in [/app]. *)
Definition projects_root_dir : string := "/app/projects".

Module Os.

(** [str(e)] of an [OSError]. *)
Definition os_error (errno strerror filename : string) : string :=
  "[Errno " +:+ errno +:+ "] " +:+ strerror +:+ ": '" +:+ filename +:+ "'".

Definition ENOENT : string → string := os_error "2" "No such file or directory".
Definition EBUSY : string → string := os_error "16" "Device or resource busy".
Definition EEXIST : string → string := os_error "17" "File exists".
Definition ENOTDIR : string → string := os_error "20" "Not a directory".
Definition EISDIR : string → string := os_error "21" "Is a directory".
Definition EINVAL : string → string := os_error "22" "Invalid argument".
Definition ENOTEMPTY : string → string := os_error "39" "Directory not empty".

(** [os.path.join(a, b)] ([posixpath]). *)
Definition join (a b : string) : string :=
  if Py.startswith b "/" then b
  else if bool_decide (a = "") || Py.endswith a "/" then a +:+ b
  else a +:+ "/" +:+ b.

(** The components of a path string, and those that name something:
    an empty component (a doubled, leading or trailing slash) names
    nothing. *)
Definition components (p : string) : list string := Py.split "/" p.

Definition names (p : string) : list string := filter (λ c, c ≠ "") (components p).

(** What is at a place; the top directory is always there. *)
Definition node_at (d : disk) (q : path) : option node :=
  match q with
  | [] => Some Dir
  | _ => d !! q
  end.

Definition is_dir (d : disk) (q : path) : bool :=
  match node_at d q with
  | Some Dir => true
  | _ => false
  end.

(** The place a list of components leads to from the place [cur]: every
    name, [.] and [..] is looked up in a directory.  The place reached
    need not exist.  Every path of the program is absolute, because
    [projects_root_dir] is, so that the walk starts at the top. *)
Fixpoint walk (d : disk) (cur : path) (comps : list string) : option path :=
  match comps with
  | [] => Some cur
  | c :: rest =>
      if decide (c = "") then walk d cur rest
      else if is_dir d cur then
        if decide (c = ".") then walk d cur rest
        else if decide (c = "..") then walk d (removelast cur) rest
        else walk d (cur ++ [c]) rest
      else None
  end.

(** [os.stat(p)]: the place and what is there; a path with a trailing
    slash names a directory only. *)
Definition stat (d : disk) (p : string) : option (path * node) :=
  if decide (p = "") then None
  else
    q ← walk d [] (components p);
    n ← node_at d q;
    match n with
    | File _ => if Py.endswith p "/" then None else Some (q, n)
    | Dir => Some (q, n)
    end.

(** [os.path.exists(p)] *)
Definition path_exists (p : string) (d : disk) : bool :=
  match stat d p with
  | Some _ => true
  | None => false
  end.

(** A place strictly below another. *)
Definition strictly_below (q k : path) : Prop := q `prefix_of` k ∧ k ≠ q.

#[global] Instance strictly_below_dec q k : Decision (strictly_below q k).
Proof. unfold strictly_below. apply _. Defined.

Definition remove_below (q : path) (d : disk) : disk :=
  filter (λ kv : path * node, ¬ strictly_below q kv.1) d.

Definition is_empty_dir (q : path) (d : disk) : bool :=
  bool_decide (map_Forall (λ k _, ¬ strictly_below q k) d).

(** [os.rmdir(p)]: the last name must be the name of an empty directory,
    not [.] or [..], and not the top directory. *)
Definition rmdir (p : string) : M disk unit :=
  λ d, match stat d p with
       | None => (Raise (ENOENT p), d)
       | Some (q, File _) => (Raise (ENOTDIR p), d)
       | Some (q, Dir) =>
           if decide (q = []) then (Raise (EBUSY p), d)
           else if decide (last (names p) = Some ".") then (Raise (EINVAL p), d)
           else if decide (last (names p) = Some "..") then (Raise (ENOTEMPTY p), d)
           else if is_empty_dir q d then (Ok tt, delete q d)
           else (Raise (ENOTEMPTY p), d)
       end.

(** [shutil.rmtree(p)]: a path that is not a directory raises; everything
    below the directory is removed, then the directory itself with
    [os.rmdir(p)]. *)
Definition rmtree (p : string) : M disk unit :=
  λ d, match stat d p with
       | None => (Raise (ENOENT p), d)
       | Some (q, File _) => (Raise (ENOTDIR p), d)
       | Some (q, Dir) => rmdir p (remove_below q d)
       end.

(** The directories named by a list of names are entered from [cur], and
    created where they are missing: what [os.makedirs] does for the head
    of its path. *)
Fixpoint make_path (comps : list string) (cur : path) : M disk path :=
  match comps with
  | [] => mret cur
  | c :: rest =>
      λ d, if is_dir d cur then
             if decide (c = ".") then make_path rest cur d
             else if decide (c = "..") then make_path rest (removelast cur) d
             else match d !! (cur ++ [c]) with
                  | Some _ => make_path rest (cur ++ [c]) d
                  | None => make_path rest (cur ++ [c]) (<[cur ++ [c] := Dir]> d)
                  end
           else (Raise (ENOTDIR ("/" +:+ Py.join "/" (cur ++ [c]))), d)
  end.

(** [os.makedirs(p)] with [exist_ok=False]: the head of the path is
    created where it is missing, then the last name with [os.mkdir],
    which raises when something is there already; a path that ends in
    [.] is done once its head has been created. *)
Definition makedirs (p : string) : M disk unit :=
  λ d, match reverse (names p) with
       | [] => (Raise (EEXIST p), d)
       | tail :: rhead =>
           match make_path (reverse rhead) [] d with
           | (Raise msg, d1) => (Raise msg, d1)
           | (Ok cur, d1) =>
               if decide (tail = ".") then
                 match walk d [] (reverse rhead) ≫= node_at d with
                 | Some _ => (Raise (if is_dir d1 cur then EEXIST p else ENOTDIR p), d1)
                 | None => (Ok tt, d1)
                 end
               else if negb (is_dir d1 cur) then (Raise (ENOTDIR p), d1)
               else if decide (tail = "..") then (Raise (EEXIST p), d1)
               else match d1 !! (cur ++ [tail]) with
                    | Some _ => (Raise (EEXIST p), d1)
                    | None => (Ok tt, <[cur ++ [tail] := Dir]> d1)
                    end
           end
       end.

(** [if not os.path.exists(p): os.makedirs(p)] *)
Definition ensure_dir (p : string) : M disk unit :=
  λ d, if path_exists p d then (Ok tt, d) else makedirs p d.

End Os.

(** [os.path.join(settings.projects_root_dir, name)] *)
Definition project_path (name : string) : string := Os.join projects_root_dir name.

Module FileManager.

(** Modelled from the spec: the module [core/file_manager.py] imported
    by [main.py] and the agents is missing.  The spec has every artifact
    "persisted to durable storage under the project's namespace" as an
    individual document, the namespace being "the storage subtree holding
    all artifacts for one submitted project", and has [StorageError] for a
    durable write or read that failed.  A document of a project is the
    file at its relative path below the project directory; a write
    creates the directories on the way and fails where the file cannot be
    created: a file stands in the way, or the path names a directory. *)
Definition document_path (name rel : string) : string := Os.join (project_path name) rel.

(** Modelled from the spec: see [document_path]. *)
Definition write (name rel : string) (doc : document) : M disk unit :=
  λ d, let p := document_path name rel in
       match reverse (Os.names p) with
       | [] => (Raise (Os.EISDIR p), d)
       | tail :: rhead =>
           match Os.make_path (reverse rhead) [] d with
           | (Raise msg, d1) => (Raise msg, d1)
           | (Ok cur, d1) =>
               if negb (Os.is_dir d1 cur) then (Raise (Os.ENOTDIR p), d1)
               else if bool_decide (tail = "." ∨ tail = "..") || Py.endswith p "/"
               then (Raise (Os.EISDIR p), d1)
               else match d1 !! (cur ++ [tail]) with
                    | Some Dir => (Raise (Os.EISDIR p), d1)
                    | _ => (Ok tt, <[cur ++ [tail] := File doc]> d1)
                    end
           end
       end.

(** Modelled from the spec: see [document_path]. *)
Definition write_json (name rel : string) (v : value) : M disk unit :=
  write name rel (Json v).

(** Modelled from the spec: see [document_path]. *)
Definition write_file (name rel : string) (s : string) : M disk unit :=
  write name rel (Text s).

(** Modelled from the spec: see [document_path]; a read of a document
    that is not there is a failed durable read. *)
Definition read_json (name rel : string) : M disk value :=
  λ d, match Os.stat d (document_path name rel) with
       | Some (_, File (Json v)) => (Ok v, d)
       | _ => (Raise (Os.ENOENT (document_path name rel)), d)
       end.

(** Modelled from the spec: see [document_path]; the paths of the files
    below the project directory, relative to it. *)
Definition get_project_files (name : string) : M disk value :=
  λ d, (Ok (VList
              match Os.stat d (project_path name) with
              | Some (q, Dir) =>
                  omap (λ kv : path * node,
                          match kv.2 with
                          | File _ =>
                              if decide (Os.strictly_below q kv.1)
                              then Some (VStr (Py.join "/" (drop (length q) kv.1)))
                              else None
                          | Dir => None
                          end) (map_to_list d)
              | _ => []
              end), d).

End FileManager.

(** Nothing but new directories: every place of [d'] is as it is in [d],
    or is a directory that was not there. *)
Definition grows (d d' : disk) : Prop :=
  ∀ q, d' !! q = d !! q ∨ (d !! q = None ∧ d' !! q = Some Dir).

(** The document of a project at a relative path. *)
Definition read_document (name rel : string) (d : disk) : option document :=
  match Os.stat d (FileManager.document_path name rel) with
  | Some (_, File doc) => Some doc
  | _ => None
  end.

(** ** The request and the project record ([main.py]) *)

Record ProjectRequest : Type := {
  project_name : string;
  description : string;
  frontend_framework : option string;
  backend_framework : option string;
  database : option string;
  include_ai : option bool;
  deployment_target : option string
}.

Inductive status : Type :=
  | initializing | planning | designing_architecture | creating_frontend
  | creating_backend | creating_ai_components | creating_documentation
  | finalizing | completed | error.

#[global] Instance status_eq_dec : EqDecision status.
Proof. solve_decision. Defined.

Definition status_name (s : status) : string :=
  match s with
  | initializing => "initializing"
  | planning => "planning"
  | designing_architecture => "designing_architecture"
  | creating_frontend => "creating_frontend"
  | creating_backend => "creating_backend"
  | creating_ai_components => "creating_ai_components"
  | creating_documentation => "creating_documentation"
  | finalizing => "finalizing"
  | completed => "completed"
  | error => "error"
  end.

Record ProjectState : Type := {
  p_id : string;
  p_name : string;
  p_status : status;
  p_progress : Q;
  p_details : gmap string value
}.

Definition set_status (s : status) (p : ProjectState) : ProjectState :=
  {| p_id := p_id p; p_name := p_name p; p_status := s;
     p_progress := p_progress p; p_details := p_details p |}.

Definition set_progress (q : Q) (p : ProjectState) : ProjectState :=
  {| p_id := p_id p; p_name := p_name p; p_status := p_status p;
     p_progress := q; p_details := p_details p |}.

(** [project["details"][k] = v] *)
Definition set_detail (k : string) (v : value) (p : ProjectState) : ProjectState :=
  {| p_id := p_id p; p_name := p_name p; p_status := p_status p;
     p_progress := p_progress p; p_details := <[k := v]> (p_details p) |}.

(** A run of consecutive assignments. *)
Definition assign (fs : list (ProjectState → ProjectState)) (p : ProjectState) : ProjectState :=
  foldl (λ p f, f p) p fs.

Definition opt_str (o : option string) : value :=
  match o with Some s => VStr s | None => VNull end.

Definition opt_bool (o : option bool) : value :=
  match o with Some b => VBool b | None => VNull end.

(** The record built by [create_project], lines 84-98. *)
Definition new_project (project_id : string) (request : ProjectRequest) : ProjectState :=
  {| p_id := project_id;
     p_name := project_name request;
     p_status := initializing;
     p_progress := 0.0;
     p_details :=
       <["description" := VStr (description request)]>
       (<["frontend_framework" := opt_str (frontend_framework request)]>
       (<["backend_framework" := opt_str (backend_framework request)]>
       (<["database" := opt_str (database request)]>
       (<["include_ai" := opt_bool (include_ai request)]>
       (<["deployment_target" := opt_str (deployment_target request)]>
       (<["created_files" := VList []]> ∅)))))) |}.

(** [if request.include_ai:] *)
Definition wants_ai (request : ProjectRequest) : bool :=
  match include_ai request with Some b => b | None => false end.

(** ** The pipeline coordinator ([process_project_request], lines 159-288)

    The five agents and the file manager are collaborators: each call
    acts on the disk and either returns or raises.  The coordinator is
    modelled for arbitrary collaborators. *)

Record collaborators : Type := {
  create_project_plan : string → ProjectRequest → M disk dict;
  create_architecture : string → dict → M disk dict;
  implement_frontend : string → string → value → value → M disk dict;
  implement_backend : string → string → value → value → M disk dict;
  implement_ai_components : string → string → value → value → M disk dict;
  create_documentation :
    string → string → dict → dict → dict → dict → dict → M disk dict;
  finalize_project : string → string → M disk dict;
  get_project_files : string → M disk value
}.

(** The places of [process_project_request] at which the record is
    written: one per run of consecutive assignments. *)
Inductive point : Type :=
  | AtStart            (* the record found in the registry, line 162 *)
  | PlanStarted        (* lines 171-172 *)
  | PlanDone           (* lines 188-190 *)
  | ArchitectureDone   (* lines 200-202 *)
  | FrontendDone       (* lines 215-217 *)
  | BackendDone        (* lines 230-231 *)
  | AIStarted          (* line 236 *)
  | AIDone             (* line 245 *)
  | DocsStarted        (* lines 248-249 *)
  | DocsDone           (* lines 264-266 *)
  | FinalizeDone       (* lines 276-278 *)
  | FilesListed        (* line 279 *)
  | Failed.            (* lines 287-288 *)

#[global] Instance point_eq_dec : EqDecision point.
Proof. solve_decision. Defined.

Record run_state : Type := {
  project : ProjectState;
  world : disk;
  history : list (point * ProjectState)
}.

(** A run of assignments to the record; the record it leaves is appended
    to the history. *)
Definition update (pt : point) (fs : list (ProjectState → ProjectState)) : M run_state unit :=
  modify (λ st, let p := assign fs (project st) in
                {| project := p; world := world st; history := history st ++ [(pt, p)] |}).

(** A call to a collaborator. *)
Definition call {A} (m : M disk A) : M run_state A :=
  λ st, let '(r, w) := m (world st) in
        (r, {| project := project st; world := w; history := history st |}).

(** [d.get(k, [])] and [d.get(k, {})] *)
Definition get_or (dflt : value) (d : dict) (k : string) : value :=
  default dflt (d !! k).

Section Coordinator.
Variable agents : collaborators.

(** Lines 163-168: a clean project directory. *)
Definition clean_project_dir (name : string) : M disk unit :=
  (λ d, if Os.path_exists (project_path name) d then Os.rmtree (project_path name) d
        else (Ok tt, d));;
  Os.makedirs (project_path name).

(** Lines 233-245. *)
Definition ai_step (project_id : string) (request : ProjectRequest)
    (project_plan architecture : dict) : M run_state dict :=
  if wants_ai request then
    update AIStarted [set_status creating_ai_components];;
    ai_results ← call (implement_ai_components agents project_id (project_name request)
                         (get_or (VList []) project_plan "ai_tasks")
                         (get_or (VDict ∅) architecture "ai"));
    update AIDone [set_detail "ai_results" (VDict ai_results)];;
    mret ai_results
  else mret ∅.

(** The body of the [try], lines 162-281. *)
Definition pipeline (project_id : string) (request : ProjectRequest) : M run_state unit :=
  call (clean_project_dir (project_name request));;
  update PlanStarted [set_status planning; set_progress 0.1];;
  project_plan ← call (create_project_plan agents project_id request);
  update PlanDone [set_status designing_architecture; set_progress 0.2;
                   set_detail "project_plan" (VDict project_plan)];;
  architecture ← call (create_architecture agents project_id project_plan);
  update ArchitectureDone [set_status creating_frontend; set_progress 0.3;
                           set_detail "architecture" (VDict architecture)];;
  frontend_results ← call (implement_frontend agents project_id (project_name request)
                             (get_or (VList []) project_plan "frontend_tasks")
                             (get_or (VDict ∅) architecture "frontend"));
  update FrontendDone [set_status creating_backend; set_progress 0.5;
                       set_detail "frontend_results" (VDict frontend_results)];;
  backend_results ← call (implement_backend agents project_id (project_name request)
                            (get_or (VList []) project_plan "backend_tasks")
                            (get_or (VDict ∅) architecture "backend"));
  update BackendDone [set_progress 0.7;
                      set_detail "backend_results" (VDict backend_results)];;
  ai_results ← ai_step project_id request project_plan architecture;
  update DocsStarted [set_status creating_documentation; set_progress 0.8];;
  doc_results ← call (create_documentation agents project_id (project_name request)
                        project_plan architecture frontend_results backend_results
                        ai_results);
  update DocsDone [set_status finalizing; set_progress 0.9;
                   set_detail "doc_results" (VDict doc_results)];;
  final_report ← call (finalize_project agents project_id (project_name request));
  update FinalizeDone [set_status completed; set_progress 1.0;
                       set_detail "final_report" (VDict final_report)];;
  created_files ← call (get_project_files agents (project_name request));
  update FilesListed [set_detail "created_files" created_files].

(** The record left by a run: the [except] clause (lines 283-288) sets
    the status and the error text on the record as it stands. *)
Definition settle (r : outcome unit) (st : run_state) : run_state :=
  match r with
  | Ok _ => st
  | Raise msg =>
      let p := assign [set_status error; set_detail "error" (VStr msg)] (project st) in
      {| project := p; world := world st; history := history st ++ [(Failed, p)] |}
  end.

(** [process_project_request] on the registry and the disk.  An
    identifier that is not in the registry raises [KeyError] on line
    162; the handler then finds no record and writes nothing. *)
Definition process_project_request (project_id : string) (request : ProjectRequest)
    (active_projects : gmap string ProjectState) (d : disk)
    : gmap string ProjectState * run_state :=
  match active_projects !! project_id with
  | None =>
      (active_projects,
       {| project := new_project project_id request; world := d; history := [] |})
  | Some p =>
      let '(r, st) :=
        pipeline project_id request {| project := p; world := d; history := [(AtStart, p)] |} in
      let st' := settle r st in
      (<[project_id := project st']> active_projects, st')
  end.

End Coordinator.

(** ** The HTTP handlers of [main.py] *)

(** What a handler does: it returns, raises [HTTPException], or lets
    another exception through. *)
Inductive response (A : Type) : Type :=
  | Success (a : A)
  | HTTPException (status_code : nat) (detail : string)
  | Unhandled (msg : string).
Arguments Success {A} a.
Arguments HTTPException {A} status_code detail.
Arguments Unhandled {A} msg.

Record ProjectStatus : Type := {
  project_id_of : string;
  status_of : string;
  progress_of : Q;
  details_of : gmap string value
}.

(** [create_project], lines 81-98; the identifier is the fresh UUID. *)
Definition create_project (project_id : string) (request : ProjectRequest)
    (active_projects : gmap string ProjectState) : gmap string ProjectState :=
  <[project_id := new_project project_id request]> active_projects.

(** [get_project_status], lines 113-125. *)
Definition get_project_status (project_id : string)
    (active_projects : gmap string ProjectState) : response ProjectStatus :=
  match active_projects !! project_id with
  | None => HTTPException 404 "Project not found"
  | Some p =>
      Success {| project_id_of := project_id; status_of := status_name (p_status p);
                 progress_of := p_progress p; details_of := p_details p |}
  end.

(** [download_project], lines 127-140: the path is the project directory. *)
Definition download_project (project_id : string)
    (active_projects : gmap string ProjectState) : response string :=
  match active_projects !! project_id with
  | None => HTTPException 404 "Project not found"
  | Some p =>
      if decide (p_status p = completed) then Success (project_path (p_name p))
      else HTTPException 400 "Project not ready for download"
  end.

(** [delete_project], lines 142-157: an exception of [shutil.rmtree]
    leaves the handler before the entry is removed. *)
Definition delete_project (project_id : string)
    (active_projects : gmap string ProjectState) (d : disk)
    : response string * gmap string ProjectState * disk :=
  match active_projects !! project_id with
  | None => (HTTPException 404 "Project not found", active_projects, d)
  | Some p =>
      if Os.path_exists (project_path (p_name p)) d then
        match Os.rmtree (project_path (p_name p)) d with
        | (Ok _, d') =>
            (Success "Project deleted successfully", delete project_id active_projects, d')
        | (Raise msg, d') => (Unhandled msg, active_projects, d')
        end
      else (Success "Project deleted successfully", delete project_id active_projects, d)
  end.

(** Submission followed by the background task. *)
Definition submit_and_run (agents : collaborators) (project_id : string)
    (request : ProjectRequest) (active_projects : gmap string ProjectState) (d : disk)
    : gmap string ProjectState * run_state :=
  process_project_request agents project_id request
    (create_project project_id request active_projects) d.

(** The state in which the background task leaves the record, the disk
    and the history of the record. *)
Definition run (agents : collaborators) (project_id : string)
    (request : ProjectRequest) (active_projects : gmap string ProjectState) (d : disk)
    : run_state :=
  (submit_and_run agents project_id request active_projects d).2.

(** The point, status and progress of every entry of a history. *)
Definition marks (h : list (point * ProjectState)) : list (point * status * Q) :=
  (λ e, (e.1, p_status e.2, p_progress e.2)) <$> h.

(** ** The stage executors

    What a generator hands back: a dictionary with the list of the paths
    it wrote under ["created_files"] and its other entries. *)

Record generated : Type := {
  gen_summary : dict;
  gen_created_files : list string
}.

Definition generated_value (g : generated) : value :=
  VDict (<["created_files" := VList (VStr <$> gen_created_files g)]> (gen_summary g)).

(** The [results] dictionary of the frontend and backend agents. *)
Definition results_dict (completed_tasks : list value) (created : list string) : dict :=
  <["completed_tasks" := VList completed_tasks]>
  (<["created_files" := VList (VStr <$> created)]> ∅).

Module FrontendAgent.
Section Agent.
(** [_process_task] (lines 87-111) picks a generator from the words of
    the task description; the generator asks the model for code,
    cleans it, writes it, and returns the paths written.
    [_create_config_files] (lines 451-577) does the same for the
    configuration files.  Both depend on the model's answers. *)
Variable process_task : string → task → value → M disk generated.
Variable create_config_files : string → value → M disk unit.

(** The dictionary appended to [completed_tasks], lines 72-76. *)
Definition task_entry (t : task) (task_result : generated) : value :=
  VDict (<["task_id" := default VNull (t !! "task_id")]>
        (<["description" := default VNull (t !! "description")]>
        (<["result" := generated_value task_result]> ∅))).

(** Lines 42-85. *)
Definition implement_frontend (project_id name : string) (tasks : list task)
    (architecture : value) : M disk dict :=
  Os.ensure_dir (Os.join (project_path name) "frontend");;
  ordered ← lift_outcome (sorted_tasks tasks);
  results ← for_acc
    (λ results t,
       task_result ← process_task name t architecture;
       mret (results.1 ++ [task_entry t task_result],
             results.2 ++ gen_created_files task_result))
    ordered ([], []);
  create_config_files name architecture;;
  FileManager.write_json name "frontend/frontend_results.json"
    (VDict (results_dict results.1 results.2));;
  mret (results_dict results.1 results.2).
End Agent.
End FrontendAgent.

Module BackendAgent.
Section Agent.
(** In [agents/backend.py] the method [_setup_project_structure] runs to
    the end of the file without a [return], and the methods
    [_process_task] and [_finalize_backend] called on lines 75 and 81 are
    not defined: read as it stands, line 71 raises [AttributeError] on
    [None] and the executor never returns.  The three methods are taken
    here as [implement_backend] uses them: each yields a dictionary read
    through [get("created_files", [])], and the result of [_process_task]
    is tested for truth first. *)
Variable setup_project_structure : string → value → M disk generated.
Variable process_task : task → string → value → M disk (option generated).
Variable finalize_backend : string → value → list task → M disk generated.

(** Lines 42-84. *)
Definition implement_backend (project_id name : string) (tasks : list task)
    (architecture : value) : M disk dict :=
  Os.ensure_dir (Os.join (project_path name) "backend");;
  ordered ← lift_outcome (sorted_tasks tasks);
  setup_result ← setup_project_structure name architecture;
  results ← for_acc
    (λ results t,
       task_result ← process_task t name architecture;
       match task_result with
       | Some r => mret (results.1 ++ [VDict t], results.2 ++ gen_created_files r)
       | None => mret results
       end)
    ordered ([], gen_created_files setup_result);
  finalizing_result ← finalize_backend name architecture ordered;
  mret (results_dict results.1 (results.2 ++ gen_created_files finalizing_result)).
End Agent.
End BackendAgent.

Module ProjectManager.
Section Agent.
(** The model's answers after [clean_json_string] and
    [parse_json_string] (imported from [core/utils.py]):
    a dictionary, or the failure of the adapter or of the parse. *)
Variable plan_response : string → ProjectRequest → outcome dict.
Variable architecture_response : string → dict → outcome dict.
Variable report_response : string → string → value → outcome dict.
(** The f-string of lines 376-396. *)
Variable readme_content : string → dict → outcome string.

(** Lines 43-139. *)
Definition create_project_plan (project_id : string) (request : ProjectRequest)
    : M disk dict :=
  project_plan ← lift_outcome (plan_response project_id request);
  Os.ensure_dir (project_path (project_name request));;
  FileManager.write_json (project_name request) "project_plan.json" (VDict project_plan);;
  mret project_plan.

(** Lines 141-315.  The document is written under
    [project_plan.get("project_name", f"project_{project_id}")]. *)
Definition create_architecture (project_id : string) (project_plan : dict)
    : M disk dict :=
  architecture ← lift_outcome (architecture_response project_id project_plan);
  match get_or (VStr ("project_" +:+ project_id)) project_plan "project_name" with
  | VStr name => FileManager.write_json name "architecture.json" (VDict architecture)
  | _ => raise "expected str, bytes or os.PathLike object"
  end;;
  mret architecture.

(** Lines 317-402. *)
Definition finalize_project (project_id name : string) : M disk dict :=
  FileManager.read_json name "project_plan.json";;
  FileManager.read_json name "architecture.json";;
  listed ← FileManager.get_project_files name;
  final_report ← lift_outcome (report_response project_id name listed);
  readme ← lift_outcome (readme_content name final_report);
  FileManager.write_json name "final_report.json" (VDict final_report);;
  FileManager.write_file name "README.md" readme;;
  mret final_report.
End Agent.
End ProjectManager.

(** ** Scripted collaborators

    Collaborators that answer from a script and leave the disk alone:
    enough to drive the coordinator along any of its paths. *)

Module Scripted.

Record script : Type := {
  plan_out : outcome dict;
  architecture_out : outcome dict;
  frontend_out : outcome dict;
  backend_out : outcome dict;
  ai_out : outcome dict;
  docs_out : outcome dict;
  final_out : outcome dict;
  files_out : outcome value
}.

Definition play (s : script) : collaborators :=
  {| create_project_plan := λ _ _, lift_outcome (plan_out s);
     create_architecture := λ _ _, lift_outcome (architecture_out s);
     implement_frontend := λ _ _ _ _, lift_outcome (frontend_out s);
     implement_backend := λ _ _ _ _, lift_outcome (backend_out s);
     implement_ai_components := λ _ _ _ _, lift_outcome (ai_out s);
     create_documentation := λ _ _ _ _ _ _ _, lift_outcome (docs_out s);
     finalize_project := λ _ _, lift_outcome (final_out s);
     get_project_files := λ _, lift_outcome (files_out s) |}.

Definition artifact (k : string) : dict := {[ k := VStr "done" ]}.

Definition all_good : script :=
  {| plan_out := Ok (artifact "project_overview");
     architecture_out := Ok (artifact "system_overview");
     frontend_out := Ok (artifact "completed_tasks");
     backend_out := Ok (artifact "completed_tasks");
     ai_out := Ok (artifact "completed_tasks");
     docs_out := Ok (artifact "documents");
     final_out := Ok (artifact "executive_summary");
     files_out := Ok (VList [VStr "README.md"]) |}.

(** The architecture stage raises. *)
Definition architecture_fails (msg : string) : script :=
  {| plan_out := plan_out all_good;
     architecture_out := Raise msg;
     frontend_out := frontend_out all_good;
     backend_out := backend_out all_good;
     ai_out := ai_out all_good;
     docs_out := docs_out all_good;
     final_out := final_out all_good;
     files_out := files_out all_good |}.

Definition demo (ai : bool) : ProjectRequest :=
  {| project_name := "demo"; description := "a todo app";
     frontend_framework := Some "react"; backend_framework := Some "fastapi";
     database := Some "postgresql"; include_ai := Some ai;
     deployment_target := Some "docker" |}.

End Scripted.

(** ** Canned model answers

    A plan and an architecture as the prompts ask for them, and
    generators of the frontend agent driven by fixed answers of the
    model. *)

Module Demo.

Definition a_task (i descr prio : string) : task :=
  {[ "task_id" := VStr i; "description" := VStr descr; "priority" := VStr prio ]}.

(** The plan as the prompt asks for it (lines 83-120): no
    ["project_name"] entry. *)
Definition plan : dict :=
  {[ "project_overview" := VStr "a todo app";
     "frontend_tasks" := VList [VDict (a_task "FE-1" "todo list" "low");
                                VDict (a_task "FE-2" "layout" "high")];
     "backend_tasks" := VList [VDict (a_task "BE-1" "todo routes" "medium")] ]}.

Definition architecture : dict :=
  {[ "system_overview" := VStr "client and server";
     "frontend" := VDict {[ "framework" := VStr "react" ]};
     "backend" := VDict ∅ ]}.

Definition report : dict := {[ "executive_summary" := VStr "done" ]}.


Definition fe_create_config_files (name : string) (arch : value) : M disk unit :=
  FileManager.write_file name "frontend/package.json" "{}".


End Demo.

(** ** The claims about progress, as the specification words them *)

(** The checkpoint the specification attaches to the completion of each
    stage: "0.0 at submission, 0.1 after plan, 0.2 after architecture,
    0.3 after frontend, 0.5 after backend, 0.7 after AI stage, 0.8 after
    docs, 1.0 at completion". *)
Definition claimed_checkpoint (pt : point) : option Q :=
  match pt with
  | AtStart => Some 0.0%Q
  | PlanDone => Some 0.1%Q
  | ArchitectureDone => Some 0.2%Q
  | FrontendDone => Some 0.3%Q
  | BackendDone => Some 0.5%Q
  | AIDone => Some 0.7%Q
  | DocsDone => Some 0.8%Q
  | FinalizeDone => Some 1.0%Q
  | _ => None
  end.

Definition progress_as_claimed (h : list (point * ProjectState)) : Prop :=
  ∀ pt p q, (pt, p) ∈ h → claimed_checkpoint pt = Some q → (p_progress p == q)%Q.

(** The history of a successful run: the marks up to the end of the
    backend stage, those of the AI stage when it runs, and the rest. *)
Definition marks_through_backend : list (point * status * Q) :=
  [(AtStart, initializing, 0.0%Q);
   (PlanStarted, planning, 0.1%Q);
   (PlanDone, designing_architecture, 0.2%Q);
   (ArchitectureDone, creating_frontend, 0.3%Q);
   (FrontendDone, creating_backend, 0.5%Q);
   (BackendDone, creating_backend, 0.7%Q)].

Definition marks_of_ai_stage (ai : bool) : list (point * status * Q) :=
  if ai then [(AIStarted, creating_ai_components, 0.7%Q);
              (AIDone, creating_ai_components, 0.7%Q)]
  else [].

Definition marks_from_documentation : list (point * status * Q) :=
  [(DocsStarted, creating_documentation, 0.8%Q);
   (DocsDone, finalizing, 0.9%Q);
   (FinalizeDone, completed, 1.0%Q);
   (FilesListed, completed, 1.0%Q)].



Definition with_documentation (agents : collaborators)
    (docs : string → string → dict → dict → dict → dict → dict → M disk dict)
    : collaborators :=
  {| create_project_plan := create_project_plan agents;
     create_architecture := create_architecture agents;
     implement_frontend := implement_frontend agents;
     implement_backend := implement_backend agents;
     implement_ai_components := implement_ai_components agents;
     create_documentation := docs;
     finalize_project := finalize_project agents;
     get_project_files := get_project_files agents |}.


(** Collaborators with another plan stage. *)
Definition with_plan (agents : collaborators)
    (plan : string → ProjectRequest → M disk dict) : collaborators :=
  {| create_project_plan := plan;
     create_architecture := create_architecture agents;
     implement_frontend := implement_frontend agents;
     implement_backend := implement_backend agents;
     implement_ai_components := implement_ai_components agents;
     create_documentation := create_documentation agents;
     finalize_project := finalize_project agents;
     get_project_files := get_project_files agents |}.

(** Collaborators with another listing of the project files. *)
Definition with_listing (agents : collaborators) (listing : string → M disk value)
    : collaborators :=
  {| create_project_plan := create_project_plan agents;
     create_architecture := create_architecture agents;
     implement_frontend := implement_frontend agents;
     implement_backend := implement_backend agents;
     implement_ai_components := implement_ai_components agents;
     create_documentation := create_documentation agents;
     finalize_project := finalize_project agents;
     get_project_files := listing |}.


(** ** The calls of a run

    The calls of [process_project_request] in the order of lines 162-279,
    each with the arguments it is given there, and what it means that the
    run has come through a stage: every call up to it has returned. *)

Section Calls.
Variable agents : collaborators.
Variable project_id : string.
Variable request : ProjectRequest.

(** Lines 175-178. *)
Definition plan_call : M disk dict := create_project_plan agents project_id request.

(** Lines 193-196. *)
Definition architecture_call (project_plan : dict) : M disk dict :=
  create_architecture agents project_id project_plan.

(** Lines 205-210. *)
Definition frontend_call (project_plan architecture : dict) : M disk dict :=
  implement_frontend agents project_id (project_name request)
    (get_or (VList []) project_plan "frontend_tasks")
    (get_or (VDict ∅) architecture "frontend").

(** Lines 220-225. *)
Definition backend_call (project_plan architecture : dict) : M disk dict :=
  implement_backend agents project_id (project_name request)
    (get_or (VList []) project_plan "backend_tasks")
    (get_or (VDict ∅) architecture "backend").

(** Lines 238-243. *)
Definition ai_call (project_plan architecture : dict) : M disk dict :=
  implement_ai_components agents project_id (project_name request)
    (get_or (VList []) project_plan "ai_tasks")
    (get_or (VDict ∅) architecture "ai").

(** Lines 252-260. *)
Definition documentation_call
    (project_plan architecture frontend_results backend_results ai_results : dict)
    : M disk dict :=
  create_documentation agents project_id (project_name request)
    project_plan architecture frontend_results backend_results ai_results.

(** Lines 270-273. *)
Definition finalize_call : M disk dict :=
  finalize_project agents project_id (project_name request).

Definition plan_returns (d : disk) (project_plan : dict) (d1 : disk) : Prop :=
  ∃ d0, clean_project_dir (project_name request) d = (Ok tt, d0)
        ∧ plan_call d0 = (Ok project_plan, d1).

Definition architecture_returns (d : disk) (project_plan architecture : dict)
    (d2 : disk) : Prop :=
  ∃ d1, plan_returns d project_plan d1
        ∧ architecture_call project_plan d1 = (Ok architecture, d2).

Definition frontend_returns (d : disk) (project_plan architecture frontend_results : dict)
    (d3 : disk) : Prop :=
  ∃ d2, architecture_returns d project_plan architecture d2
        ∧ frontend_call project_plan architecture d2 = (Ok frontend_results, d3).

Definition backend_returns (d : disk)
    (project_plan architecture frontend_results backend_results : dict)
    (d4 : disk) : Prop :=
  ∃ d3, frontend_returns d project_plan architecture frontend_results d3
        ∧ backend_call project_plan architecture d3 = (Ok backend_results, d4).

(** The AI stage has returned, or was skipped with the empty artifact
    (lines 233-245). *)
Definition ai_returns (d : disk)
    (project_plan architecture frontend_results backend_results ai_results : dict)
    (d5 : disk) : Prop :=
  ∃ d4, backend_returns d project_plan architecture frontend_results backend_results d4
        ∧ if wants_ai request
          then ai_call project_plan architecture d4 = (Ok ai_results, d5)
          else ai_results = ∅ ∧ d5 = d4.

Definition documentation_returns (d : disk)
    (project_plan architecture frontend_results backend_results ai_results
       doc_results : dict)
    (d6 : disk) : Prop :=
  ∃ d5, ai_returns d project_plan architecture frontend_results backend_results
          ai_results d5
        ∧ documentation_call project_plan architecture frontend_results backend_results
            ai_results d5 = (Ok doc_results, d6).

End Calls.

(** The point, status and progress of every entry of the history of a
    run. *)
Definition run_marks (agents : collaborators) (project_id : string)
    (request : ProjectRequest) (active_projects : gmap string ProjectState) (d : disk)
    : list (point * status * Q) :=
  marks (history (run agents project_id request active_projects d)).

(** Order on the decorated elements of [sorted]. *)
Definition key_le {A} (a b : nat * A) : Prop := a.1 ≤ b.1.

(** The progress recorded by an entry of a history. *)
Definition progress_of_entry (e : point * ProjectState) : Q := p_progress e.2.

(** The points a history has gone through. *)
Definition points (h : list (point * ProjectState)) : list point := h.*1.

(** The run in which the architecture stage raises. *)
Definition architecture_failure_run : run_state :=
  run (Scripted.play (Scripted.architecture_fails "AdapterError: quota exceeded"))
    "p1" (Scripted.demo false) ∅ ∅.


(** A request for a project of the given name. *)
Definition named (name : string) : ProjectRequest :=
  {| project_name := name; description := "a todo app";
     frontend_framework := None; backend_framework := None;
     database := None; include_ai := None; deployment_target := None |}.

(** The disk on which the project ["demo"] has its README and nothing
    else. *)
Definition disk_with_readme : disk :=
  (FileManager.write_file "demo" "README.md" "# demo" ∅).2.

(** The statuses a history has gone through. *)
Definition statuses (h : list (point * ProjectState)) : list status :=
  (λ e, p_status e.2) <$> h.

(** The frontend executor on an empty disk, and the architecture stage
    on the plan the prompt asks for. *)


Definition architecture_alone : outcome dict * disk :=
  ProjectManager.create_architecture (λ _ _, Ok Demo.architecture) "p1" Demo.plan ∅.

(** The plan stage of the project manager for the project ["demo"] on an
    empty disk, followed by its architecture stage. *)
Definition plan_alone : outcome dict * disk :=
  ProjectManager.create_project_plan (λ _ _, Ok Demo.plan) "p1" (Scripted.demo false) ∅.

Definition architecture_after_plan : outcome dict * disk :=
  ProjectManager.create_architecture (λ _ _, Ok Demo.architecture) "p1" Demo.plan
    plan_alone.2.


(** ** More Python string methods

    As for [isspace], characters are code points below 256. *)

Module PyText.

(** [str.lower] *)
Definition lower_char (c : ascii) : ascii :=
  let n := nat_of_ascii c in
  if ((65 <=? n) && (n <=? 90)) || ((192 <=? n) && (n <=? 214))
     || ((216 <=? n) && (n <=? 222))
  then ascii_of_nat (n + 32) else c.

Fixpoint lower (s : string) : string :=
  match s with
  | EmptyString => EmptyString
  | String c s' => String (lower_char c) (lower s')
  end.

(** [sub in s] *)
Fixpoint contains (s sub : string) : bool :=
  String.prefix sub s
  || match s with
     | EmptyString => false
     | String _ s' => contains s' sub
     end.

(** [str.isalnum] on one character *)
Definition isalnum (c : ascii) : bool :=
  let n := nat_of_ascii c in
  ((48 <=? n) && (n <=? 57)) || ((65 <=? n) && (n <=? 90))
  || ((97 <=? n) && (n <=? 122)) || (n =? 170) || ((178 <=? n) && (n <=? 179))
  || (n =? 181) || ((185 <=? n) && (n <=? 186)) || ((188 <=? n) && (n <=? 190))
  || ((192 <=? n) && (n <=? 214)) || ((216 <=? n) && (n <=? 246))
  || ((248 <=? n) && (n <=? 255)).

(** [''.join(c for c in s if keep c)] *)
Fixpoint only (keep : ascii → bool) (s : string) : string :=
  match s with
  | EmptyString => EmptyString
  | String c s' => if keep c then String c (only keep s') else only keep s'
  end.

(** [all(p(c) for c in s)] *)
Fixpoint every (p : ascii → bool) (s : string) : bool :=
  match s with
  | EmptyString => true
  | String c s' => p c && every p s'
  end.

(** The word that touches the start of [s], and the words after it. *)
Fixpoint words_aux (s : string) : string * list string :=
  match s with
  | EmptyString => (EmptyString, [])
  | String c s' =>
      let '(w, ws) := words_aux s' in
      if Py.isspace c
      then (EmptyString, match w with EmptyString => ws | _ => w :: ws end)
      else (String c w, ws)
  end.

(** [s.split()] *)
Definition words (s : string) : list string :=
  let '(w, ws) := words_aux s in
  match w with EmptyString => ws | _ => w :: ws end.

(** [s.split(sep, 1)[1]]: what follows the first separator, if there is one. *)
Fixpoint after_first (sep : ascii) (s : string) : option string :=
  match s with
  | EmptyString => None
  | String c s' => if Ascii.eqb c sep then Some s' else after_first sep s'
  end.

(** No line break in [s]. *)
Definition one_line (s : string) : bool :=
  every (λ c, negb (Ascii.eqb c "010"%char)) s.

End PyText.

(** ** The keyword rules of the frontend agent ([agents/frontend.py]) *)

Module FrontendRules.

Inductive generator : Type :=
  | GenerateComponent | GeneratePage | GenerateStyles | GenerateService
  | GenerateGeneric.

(** The dispatch of [_process_task], lines 100-111. *)
Definition choose_generator (description : string) : generator :=
  let d := PyText.lower description in
  if PyText.contains d "component" then GenerateComponent
  else if PyText.contains d "page" then GeneratePage
  else if PyText.contains d "style" then GenerateStyles
  else if PyText.contains d "service" || PyText.contains d "api" then GenerateService
  else GenerateGeneric.

(** [_generate_styles], line 272. *)
Definition styling_approach (description : string) : string :=
  let d := PyText.lower description in
  if PyText.contains d "css" then "CSS"
  else if PyText.contains d "scss" then "SCSS"
  else if PyText.contains d "tailwind" then "Tailwind"
  else "CSS".

(** [_generate_styles], lines 275-276. *)
Definition styles_file_path (description : string) : string :=
  "src/styles/main"
  +:+ (if String.eqb (styling_approach description) "SCSS" then ".scss" else ".css").

(** [_generate_generic_files], line 393. *)
Definition generic_file_type (description : string) : string :=
  let d := PyText.lower description in
  if PyText.contains d "util" then "utility"
  else if PyText.contains d "component" then "component"
  else if PyText.contains d "config" then "config"
  else "misc".

(** [_generate_service] line 337 and [_generate_generic_files] line 399;
    the framework is [architecture.get("framework", "react")]. *)
Definition script_extension (framework : value) : string :=
  match framework with
  | VStr f => if String.eqb f "react" then ".js"
              else if String.eqb f "angular" then ".ts" else ".js"
  | _ => ".js"
  end.

(** [_generate_generic_files], line 401. *)
Definition default_generic_path (file_type extension : string) : string :=
  if String.eqb file_type "utility" then "src/utils/helpers" +:+ extension
  else if String.eqb file_type "config" then "src/config/app-config" +:+ extension
  else "src/misc/index" +:+ extension.

(** The body of the loop of lines 404-408 for one line of the description. *)
Definition custom_path_step (file_path line : string) : outcome string :=
  if PyText.contains (PyText.lower line) "file:"
     || PyText.contains (PyText.lower line) "path:"
  then match PyText.after_first ":"%char line with
       | None => Raise "list index out of range"
       | Some rest =>
           let potential_path := Py.strip rest in
           if negb (String.eqb potential_path "")
              && negb (Py.startswith potential_path "/")
           then Ok potential_path else Ok file_path
       end
  else Ok file_path.

Fixpoint custom_path_loop (lines : list string) (file_path : string) : outcome string :=
  match lines with
  | [] => Ok file_path
  | line :: rest =>
      match custom_path_step file_path line with
      | Ok file_path' => custom_path_loop rest file_path'
      | Raise msg => Raise msg
      end
  end.

(** The path chosen by [_generate_generic_files], lines 393-408. *)
Definition generic_file_path (description : string) (framework : value) : outcome string :=
  custom_path_loop (Py.split "010"%char description)
    (default_generic_path (generic_file_type description) (script_extension framework)).

Definition service_keyword (word : string) : bool :=
  let w := PyText.lower word in
  String.eqb w "service" || String.eqb w "api" || String.eqb w "client".

(** The loop of [_extract_service_name], lines 622-627, with the word
    before the current one in [previous] (none at index 0). *)
Fixpoint service_name_loop (previous : option string) (words : list string)
    (service_name : string) : string :=
  match words with
  | [] => service_name
  | word :: rest =>
      service_name_loop (Some word) rest
        (if service_keyword word
         then match previous with
              | Some p =>
                  PyText.only (λ c, PyText.isalnum c || Ascii.eqb c "-"%char)
                    (PyText.lower p)
              | None => service_name
              end
         else service_name)
  end.

(** [_extract_service_name], lines 615-629. *)
Definition extract_service_name (description : string) : string :=
  service_name_loop None (PyText.words description) "api".

(** The path written by [_generate_service], line 338. *)
Definition service_file_path (description : string) (framework : value) : string :=
  "src/services/" +:+ extract_service_name description +:+ ".service"
  +:+ script_extension framework.

End FrontendRules.

(** [c in s] for one character. *)
Fixpoint has_char (c : ascii) (s : string) : bool :=
  match s with
  | EmptyString => false
  | String x s' => Ascii.eqb x c || has_char c s'
  end.

(** The characters [_extract_service_name] keeps. *)
Definition service_char (c : ascii) : bool :=
  PyText.isalnum c || Ascii.eqb c "-"%char.

(** A character that [str.lower] leaves as it is. *)
Definition is_lowered (c : ascii) : bool := Ascii.eqb (PyText.lower_char c) c.

(** A path that is not empty and does not start at the root. *)
Definition relative_path (p : string) : Prop := p ≠ "" ∧ Py.startswith p "/" = false.


(** The answer of [get_project_status] for a record. *)
Definition status_answer (project_id : string) (p : ProjectState) : ProjectStatus :=
  {| project_id_of := project_id; status_of := status_name (p_status p);
     progress_of := p_progress p; details_of := p_details p |}.

(** * Properties *)

(** ** Clean-up of generated code *)

(** C8. The clean-up of [_generate_component] and of the [package.json]
    part of [_create_config_files] strips two layers of fences when the
    inner fence carries one of the language tags tested after the bare
    fence: for a payload wrapped in a tagged fence inside a bare fence the
    inner fence is not preserved, only the payload is left.  The
    [if]/[elif] clean-up of [index.html] in the same file strips one layer
    of the same input and keeps the inner fence. *)
Theorem C8_nested_fences_both_stripped :
  clean_component_code (doubly_fenced "jsx" "export default App;") = "export default App;"
  ∧ clean_package_json (doubly_fenced "json" "{}") = "{}"
  ∧ clean_index_html (doubly_fenced "html" "<html></html>") = fenced "html" "<html></html>"
  ∧ clean_component_code (fenced "" (fenced "vue" (fenced "css" "a {}"))) = "a {}".
Proof. repeat split; vm_compute; reflexivity. Qed.

(** With an untagged inner fence a single layer is stripped. *)
Lemma clean_component_code_bare_inner :
  clean_component_code (doubly_fenced "" "x = 1") = fenced "" "x = 1".
Proof. vm_compute; reflexivity. Qed.

(** The three shapes of a single fence are reduced to the payload. *)
Lemma clean_component_code_single_fence :
  clean_component_code "const a = 1;" = "const a = 1;"
  ∧ clean_component_code (fenced "" "const a = 1;") = "const a = 1;"
  ∧ clean_component_code (fenced "jsx" "const a = 1;") = "const a = 1;"
  ∧ clean_component_code (" " +:+ fenced "jsx" "const a = 1;" +:+ Py.nl) = "const a = 1;".
Proof. repeat split; vm_compute; reflexivity. Qed.

(** ** The order in which tasks are processed *)

Section SortStable.
Context {A : Type}.
Implicit Types (x : nat * A) (l : list (nat * A)).

Lemma insert_stable_perm x l : insert_stable x l ≡ₚ x :: l.
Proof.
  induction l as [|y l IH]; cbn [insert_stable]; [reflexivity|].
  destruct (y.1 <? x.1); [|reflexivity].
  rewrite IH. apply Permutation_swap.
Qed.

Lemma sort_stable_perm l : sort_stable l ≡ₚ l.
Proof.
  induction l as [|x l IH]; cbn [sort_stable foldr]; [reflexivity|].
  rewrite insert_stable_perm. by f_equiv.
Qed.

Lemma insert_stable_sorted x l :
  StronglySorted key_le l → StronglySorted key_le (insert_stable x l).
Proof.
  induction 1 as [|y l Hl IH Hy]; cbn [insert_stable].
  - repeat constructor.
  - destruct (Nat.ltb_spec y.1 x.1) as [Hlt|Hge].
    + constructor; [done|].
      rewrite insert_stable_perm. constructor; [unfold key_le; lia | done].
    + constructor; [by constructor|].
      constructor; [done|].
      eapply Forall_impl; [exact Hy|]. unfold key_le. intros; lia.
Qed.

Lemma sort_stable_sorted l : StronglySorted key_le (sort_stable l).
Proof.
  induction l as [|x l IH]; cbn [sort_stable foldr]; [constructor|].
  by apply insert_stable_sorted.
Qed.

(** Stability: among the elements of one key the order is kept. *)
Lemma insert_stable_filter (r : nat) x l :
  filter (λ a, a.1 = r) (insert_stable x l) = filter (λ a, a.1 = r) (x :: l).
Proof.
  induction l as [|y l IH]; cbn [insert_stable]; [done|].
  destruct (Nat.ltb_spec y.1 x.1) as [Hlt|Hge]; [|done].
  rewrite !filter_cons, IH, !filter_cons.
  repeat case_decide; try done; lia.
Qed.

Lemma sort_stable_filter (r : nat) l :
  filter (λ a, a.1 = r) (sort_stable l) = filter (λ a, a.1 = r) l.
Proof.
  induction l as [|x l IH]; cbn [sort_stable foldr]; [done|].
  rewrite insert_stable_filter, !filter_cons. fold (sort_stable l). by rewrite IH.
Qed.

(** When no key raises, [sorted] is the stable sort on the keys. *)
Lemma decorate_total (key : A → outcome nat) (k : A → nat) (xs : list A) :
  Forall (λ a, key a = Ok (k a)) xs →
  decorate key xs = Ok ((λ a, (k a, a)) <$> xs).
Proof.
  induction 1 as [|a xs Ha _ IH]; cbn; [done|].
  by rewrite Ha, IH.
Qed.

Lemma sorted_total (key : A → outcome nat) (k : A → nat) (xs : list A) :
  Forall (λ a, key a = Ok (k a)) xs →
  ∃ ys, sorted key xs = Ok ys
        ∧ ys ≡ₚ xs
        ∧ StronglySorted (λ a b, k a ≤ k b) ys
        ∧ ∀ r, filter (λ a, k a = r) ys = filter (λ a, k a = r) xs.
Proof.
  intros Hkey. unfold sorted. rewrite (decorate_total key k xs Hkey).
  set (kl := (λ a, (k a, a)) <$> xs).
  assert (Hkeys : Forall (λ a : nat * A, a.1 = k a.2) (sort_stable kl)).
  { rewrite sort_stable_perm. subst kl. apply Forall_fmap, Forall_true. done. }
  eexists; split; [done|]. split; [|split].
  - rewrite sort_stable_perm. subst kl.
    rewrite <-list_fmap_compose. by rewrite list_fmap_id.
  - pose proof (sort_stable_sorted kl) as Hs.
    induction Hs as [|a s Hs IH Ha]; cbn; [constructor|].
    apply Forall_cons in Hkeys as [Hk Hkeys].
    constructor; [by apply IH|].
    apply Forall_fmap. rewrite Forall_forall in Ha, Hkeys |- *.
    intros b Hb. cbn. specialize (Ha b Hb). specialize (Hkeys b Hb).
    unfold key_le in Ha. lia.
  - intros r.
    transitivity (snd <$> filter (λ a : nat * A, a.1 = r) (sort_stable kl)).
    + clear -Hkeys. induction Hkeys as [|a s Ha _ IH]; [done|].
      rewrite fmap_cons, !filter_cons, IH.
      repeat case_decide; try done; congruence.
    + rewrite sort_stable_filter. subst kl. clear.
      induction xs as [|a xs IH]; [done|].
      rewrite fmap_cons, !filter_cons. cbn [fst].
      case_decide; [rewrite fmap_cons|]; by rewrite IH.
Qed.

End SortStable.

(** The rank of a task: 0 for ["high"], 2 for ["low"], and 1 for
    ["medium"], for a missing priority and for any other value that can
    be looked up. *)
Lemma priority_map_lookup (s : string) :
  priority_map !! s =
    if decide (s = "high") then Some 0
    else if decide (s = "medium") then Some 1
    else if decide (s = "low") then Some 2 else None.
Proof.
  unfold priority_map. rewrite !lookup_insert, lookup_empty.
  repeat case_decide; congruence.
Qed.

Lemma priority_key_hashable (t : task) :
  priority_hashable t → priority_key t = Ok (rank t).
Proof.
  unfold priority_hashable, rank, priority_key.
  destruct (t !! "priority") as [[]|]; cbn; done.
Qed.

Lemma rank_high (t : task) : t !! "priority" = Some (VStr "high") → rank t = 0.
Proof. unfold rank, priority_key. intros ->. reflexivity. Qed.

Lemma rank_low (t : task) : t !! "priority" = Some (VStr "low") → rank t = 2.
Proof. unfold rank, priority_key. intros ->. reflexivity. Qed.

Lemma rank_medium (t : task) : t !! "priority" = Some (VStr "medium") → rank t = 1.
Proof. unfold rank, priority_key. intros ->. reflexivity. Qed.

Lemma rank_missing (t : task) : t !! "priority" = None → rank t = 1.
Proof. unfold rank, priority_key. intros ->. reflexivity. Qed.

Lemma rank_unrecognized (t : task) (v : value) :
  t !! "priority" = Some v → v ≠ VStr "high" → v ≠ VStr "low" → rank t = 1.
Proof.
  unfold rank, priority_key. intros -> Hh Hl.
  destruct v as [| | |s| |]; cbn; try done.
  rewrite priority_map_lookup. repeat case_decide; subst; done.
Qed.

Lemma rank_le_2 (t : task) : rank t ≤ 2.
Proof.
  unfold rank, priority_key.
  destruct (t !! "priority") as [[| | |s| |]|];
    cbn [from_option id priority_map_get];
    first [ lia | rewrite priority_map_lookup; repeat case_decide; cbn; lia ].
Qed.

(** On tasks whose priority can be looked up, line 67 yields the tasks in
    non-decreasing rank, tasks of one rank in their original order. *)
Lemma sorted_tasks_spec (tasks : list task) :
  Forall priority_hashable tasks →
  ∃ ordered, sorted_tasks tasks = Ok ordered
    ∧ ordered ≡ₚ tasks
    ∧ StronglySorted (λ a b, rank a ≤ rank b) ordered
    ∧ ∀ r, filter (λ t, rank t = r) ordered = filter (λ t, rank t = r) tasks.
Proof.
  intros H. apply sorted_total.
  eapply Forall_impl; [exact H|]. apply priority_key_hashable.
Qed.

Lemma strongly_sorted_lookup {A} (R : A → A → Prop) (l : list A) (i j : nat) (a b : A) :
  StronglySorted R l → l !! i = Some a → l !! j = Some b → i < j → R a b.
Proof.
  intros Hs. revert i j. induction Hs as [|x l Hs IH Hx]; intros i j Ha Hb Hij.
  - by rewrite lookup_nil in Ha.
  - destruct j as [|j]; [lia|]. cbn in Hb. destruct i as [|i]; cbn in Ha.
    + injection Ha as <-. rewrite Forall_forall in Hx.
      apply Hx. by eapply list_elem_of_lookup_2.
    + eapply IH; eauto. lia.
Qed.

(** Every ["high"] task comes before every ["medium"] task, and those
    before every ["low"] task. *)
Lemma sorted_tasks_high_first (tasks ordered : list task) (i j : nat) (a b : task) :
  Forall priority_hashable tasks →
  sorted_tasks tasks = Ok ordered →
  ordered !! i = Some a → ordered !! j = Some b → rank a < rank b → i < j.
Proof.
  intros H Hs Ha Hb Hlt.
  destruct (sorted_tasks_spec tasks H) as (o & Ho & _ & Hsorted & _).
  rewrite Hs in Ho. injection Ho as <-.
  destruct (decide (i < j)) as [|Hge]; [done|exfalso].
  assert (j = i ∨ j < i) as [->|Hji] by lia.
  { rewrite Ha in Hb. injection Hb as ->. lia. }
  pose proof (strongly_sorted_lookup _ _ _ _ _ _ Hsorted Hb Ha Hji) as Hle.
  cbn in Hle. lia.
Qed.

(** The frontend loop handles the tasks in the order of [sorted]: the
    entries of ["completed_tasks"] are those of the sorted tasks, one
    each, in order. *)
Lemma frontend_loop_order (process_task : string → task → value → M disk generated)
    (name : string) (architecture : value)
    (ordered : list task) (acc acc' : list value * list string) (d d' : disk) :
  for_acc (λ results t,
             task_result ← process_task name t architecture;
             mret (results.1 ++ [FrontendAgent.task_entry t task_result],
                   results.2 ++ gen_created_files task_result))
          ordered acc d = (Ok acc', d') →
  ∃ rs, length rs = length ordered
        ∧ acc'.1 = acc.1 ++ zip_with FrontendAgent.task_entry ordered rs.
Proof.
  revert acc d. induction ordered as [|t ts IH]; intros acc d; cbn.
  - intros [= <- <-]. exists []. by rewrite app_nil_r.
  - unfold mbind, M_bind, bind at 1.
    unfold mbind, M_bind, bind at 1.
    destruct (process_task name t architecture d) as [[r|msg] d1]; [|done].
    cbn. intros Hrest. apply IH in Hrest as (rs & Hlen & ->).
    exists (r :: rs). cbn. split; [by rewrite Hlen|].
    by rewrite <-app_assoc.
Qed.

(** C10. A task whose ["priority"] entry is a list makes the key function
    of [sorted] raise [TypeError]: the frontend and the backend executor
    raise before any task is processed, instead of treating the task as
    ["medium"].  An executor called with such a task never returns; once
    its directory is there (lines 54-56) it raises this [TypeError] and
    leaves the disk as the check of the directory left it, whatever the
    generators are. *)
Theorem C10_unhashable_priority_raises :
  let odd := <["priority" := VList [VStr "high"]]> (Demo.a_task "FE-3" "footer" "low") in
  let tasks := [Demo.a_task "FE-1" "todo list" "low"; odd] in
  sorted_tasks tasks = Raise "unhashable type: 'list'"
  ∧ (∀ process_task create_config_files architecture d,
       is_ok (FrontendAgent.implement_frontend process_task create_config_files
                "p1" "demo" tasks architecture d).1 = false
       ∧ ∀ d0, Os.ensure_dir (Os.join (project_path "demo") "frontend") d = (Ok tt, d0) →
           FrontendAgent.implement_frontend process_task create_config_files
             "p1" "demo" tasks architecture d = (Raise "unhashable type: 'list'", d0))
  ∧ (∀ setup process_task finalize architecture d,
       is_ok (BackendAgent.implement_backend setup process_task finalize
                "p1" "demo" tasks architecture d).1 = false
       ∧ ∀ d0, Os.ensure_dir (Os.join (project_path "demo") "backend") d = (Ok tt, d0) →
           BackendAgent.implement_backend setup process_task finalize
             "p1" "demo" tasks architecture d = (Raise "unhashable type: 'list'", d0))
  ∧ (∀ process_task create_config_files architecture,
       (FrontendAgent.implement_frontend process_task create_config_files
          "p1" "demo" tasks architecture ∅).1 = Raise "unhashable type: 'list'")
  ∧ (∀ setup process_task finalize architecture,
       (BackendAgent.implement_backend setup process_task finalize
          "p1" "demo" tasks architecture ∅).1 = Raise "unhashable type: 'list'").
Proof.
  cbv zeta.
  assert (Hs : sorted_tasks
                 [Demo.a_task "FE-1" "todo list" "low";
                  <["priority" := VList [VStr "high"]]> (Demo.a_task "FE-3" "footer" "low")]
               = Raise "unhashable type: 'list'") by reflexivity.
  assert (Hfe : ∀ process_task create_config_files architecture d,
            FrontendAgent.implement_frontend process_task create_config_files "p1" "demo"
              [Demo.a_task "FE-1" "todo list" "low";
               <["priority" := VList [VStr "high"]]> (Demo.a_task "FE-3" "footer" "low")]
              architecture d
            = match Os.ensure_dir (Os.join (project_path "demo") "frontend") d with
              | (Ok _, d0) => (Raise "unhashable type: 'list'", d0)
              | (Raise msg, d0) => (Raise msg, d0)
              end).
  { intros. unfold FrontendAgent.implement_frontend, mbind, M_bind, bind, lift_outcome.
    rewrite Hs. by destruct (Os.ensure_dir _ d) as [[[]|msg] d0]. }
  assert (Hbe : ∀ setup process_task finalize architecture d,
            BackendAgent.implement_backend setup process_task finalize "p1" "demo"
              [Demo.a_task "FE-1" "todo list" "low";
               <["priority" := VList [VStr "high"]]> (Demo.a_task "FE-3" "footer" "low")]
              architecture d
            = match Os.ensure_dir (Os.join (project_path "demo") "backend") d with
              | (Ok _, d0) => (Raise "unhashable type: 'list'", d0)
              | (Raise msg, d0) => (Raise msg, d0)
              end).
  { intros. unfold BackendAgent.implement_backend, mbind, M_bind, bind, lift_outcome.
    rewrite Hs. by destruct (Os.ensure_dir _ d) as [[[]|msg] d0]. }
  split; [exact Hs|]. split; [|split; [|split]].
  - intros. rewrite Hfe. split.
    + by destruct (Os.ensure_dir _ d) as [[[]|msg] d0].
    + by intros d0 ->.
  - intros. rewrite Hbe. split.
    + by destruct (Os.ensure_dir _ d) as [[[]|msg] d0].
    + by intros d0 ->.
  - intros. by rewrite Hfe.
  - intros. by rewrite Hbe.
Qed.

(** A list with every kind of priority that can be looked up. *)
Lemma sorted_tasks_example :
  sorted_tasks [Demo.a_task "T1" "a" "low"; Demo.a_task "T2" "b" "urgent";
                Demo.a_task "T3" "c" "high"; delete "priority" (Demo.a_task "T4" "d" "");
                Demo.a_task "T5" "e" "high"; Demo.a_task "T6" "f" "medium"]
  = Ok [Demo.a_task "T3" "c" "high"; Demo.a_task "T5" "e" "high";
        Demo.a_task "T2" "b" "urgent"; delete "priority" (Demo.a_task "T4" "d" "");
        Demo.a_task "T6" "f" "medium"; Demo.a_task "T1" "a" "low"].
Proof. reflexivity. Qed.

(** ** The coordinator *)

(** A run is followed call by call: each call of a collaborator either
    returns, and the run goes on, or raises, and the run is settled. *)
Ltac unfold_run :=
  unfold run, submit_and_run, process_project_request, create_project;
  rewrite ?lookup_insert_eq.

Ltac run_simpl :=
  unfold pipeline, ai_step, call, update, modify, lift_outcome, settle,
    mbind, M_bind, bind, mret, M_ret, ret;
  cbn [world project history fst snd app].

Ltac run_step :=
  match goal with
  | |- context [if wants_ai ?r then _ else _] => destruct (wants_ai r) eqn:?
  | |- context [match ?m with (_, _) => _ end] =>
      lazymatch m with
      | context [match _ with _ => _ end] => fail
      | _ => destruct m as [[?|?] ?] eqn:?
      end
  end.

Ltac run_cases := unfold_run; run_simpl; repeat (run_step; run_simpl).

Ltac record_simpl :=
  cbn [marks marks_through_backend marks_of_ai_stage marks_from_documentation
       fmap list_fmap assign foldl set_status set_progress set_detail
       p_id p_name p_status p_progress p_details new_project
       world project history fst snd app].

(** What a status poll reads after the run is the record the run left. *)
Lemma registry_after_run agents project_id request reg d :
  (submit_and_run agents project_id request reg d).1 !! project_id
  = Some (project (run agents project_id request reg d)).
Proof.
  unfold run, submit_and_run, process_project_request, create_project.
  rewrite lookup_insert_eq.
  destruct (pipeline _ _ _ _) as [r st]. cbn [fst snd].
  by rewrite lookup_insert_eq.
Qed.

(** The hypotheses on the calls of a run are taken apart, and the run is
    followed along the calls that are known to return or to raise. *)
Ltac calls_simpl :=
  unfold documentation_returns, ai_returns, backend_returns, frontend_returns,
    architecture_returns, plan_returns, plan_call, architecture_call, frontend_call,
    backend_call, ai_call, documentation_call, finalize_call in *;
  repeat match goal with
  | H : ∃ _, _ |- _ => destruct H as (? & H)
  | H : _ ∧ _ |- _ => destruct H as (? & ?)
  end.

Ltac run_along :=
  unfold_run; run_simpl;
  repeat (match goal with
          | H : ?m = (_, _) |- context [?m] => rewrite H
          | H : wants_ai _ = _ |- _ => rewrite H
          end; run_simpl).

(** C1 (amended). The progress takes its fixed values when a stage is
    entered, not when it completes.  On a run that ends with status
    [completed], the record goes through exactly these statuses and
    progress values: 0.0 at submission, 0.1 when planning starts, 0.2 once
    the plan stage has returned, 0.3 once the architecture stage has
    returned, 0.5 once the frontend stage has returned, 0.7 once the
    backend stage has returned (kept while the AI stage runs), 0.8 when
    documentation starts, after the AI stage or its skip, 0.9 once the
    documentation stage has returned and finalizing starts, and 1.0 once
    the finalize stage has returned.  A stage that raises leaves the
    progress at the value written when it was entered: 0.1 for the plan
    stage, 0.2 for the architecture stage, 0.3 for the frontend stage, 0.5
    for the backend stage, 0.7 for the AI stage, 0.8 for the documentation
    stage and 0.9 for the finalize stage. *)
Theorem C1_progress_checkpoints agents project_id request reg d :
  (p_status (project (run agents project_id request reg d)) = completed →
   run_marks agents project_id request reg d =
     marks_through_backend ++ marks_of_ai_stage (wants_ai request)
     ++ marks_from_documentation)
  ∧ (∀ d0 msg d1,
       clean_project_dir (project_name request) d = (Ok tt, d0) →
       plan_call agents project_id request d0 = (Raise msg, d1) →
       run_marks agents project_id request reg d =
         take 2 marks_through_backend ++ [(Failed, error, 0.1%Q)])
  ∧ (∀ plan d1 msg d2,
       plan_returns agents project_id request d plan d1 →
       architecture_call agents project_id plan d1 = (Raise msg, d2) →
       run_marks agents project_id request reg d =
         take 3 marks_through_backend ++ [(Failed, error, 0.2%Q)])
  ∧ (∀ plan architecture d2 msg d3,
       architecture_returns agents project_id request d plan architecture d2 →
       frontend_call agents project_id request plan architecture d2 = (Raise msg, d3) →
       run_marks agents project_id request reg d =
         take 4 marks_through_backend ++ [(Failed, error, 0.3%Q)])
  ∧ (∀ plan architecture frontend_results d3 msg d4,
       frontend_returns agents project_id request d plan architecture frontend_results d3 →
       backend_call agents project_id request plan architecture d3 = (Raise msg, d4) →
       run_marks agents project_id request reg d =
         take 5 marks_through_backend ++ [(Failed, error, 0.5%Q)])
  ∧ (∀ plan architecture frontend_results backend_results d4 msg d5,
       backend_returns agents project_id request d plan architecture frontend_results
         backend_results d4 →
       wants_ai request = true →
       ai_call agents project_id request plan architecture d4 = (Raise msg, d5) →
       run_marks agents project_id request reg d =
         marks_through_backend ++ take 1 (marks_of_ai_stage true)
         ++ [(Failed, error, 0.7%Q)])
  ∧ (∀ plan architecture frontend_results backend_results ai_results d5 msg d6,
       ai_returns agents project_id request d plan architecture frontend_results
         backend_results ai_results d5 →
       documentation_call agents project_id request plan architecture frontend_results
         backend_results ai_results d5 = (Raise msg, d6) →
       run_marks agents project_id request reg d =
         marks_through_backend ++ marks_of_ai_stage (wants_ai request)
         ++ take 1 marks_from_documentation ++ [(Failed, error, 0.8%Q)])
  ∧ (∀ plan architecture frontend_results backend_results ai_results doc_results
       d6 msg d7,
       documentation_returns agents project_id request d plan architecture
         frontend_results backend_results ai_results doc_results d6 →
       finalize_call agents project_id request d6 = (Raise msg, d7) →
       run_marks agents project_id request reg d =
         marks_through_backend ++ marks_of_ai_stage (wants_ai request)
         ++ take 2 marks_from_documentation ++ [(Failed, error, 0.9%Q)]).
Proof.
  unfold run_marks. split.
  { run_cases; record_simpl; first [discriminate | reflexivity]. }
  repeat split; intros; calls_simpl;
    try (destruct (wants_ai request) eqn:?; calls_simpl; subst);
    try discriminate; run_along; reflexivity.
Qed.

(** A run in which every stage returns, and a run in which the plan
    stage raises. *)
Lemma C1_progress_checkpoints_witness :
  run_marks (Scripted.play Scripted.all_good) "p1" (Scripted.demo false) ∅ ∅ =
    marks_through_backend ++ marks_of_ai_stage false ++ marks_from_documentation
  ∧ run_marks (with_plan (Scripted.play Scripted.all_good)
                 (λ _ _, raise "AdapterError: quota exceeded"))
      "p1" (Scripted.demo false) ∅ ∅ =
      [(AtStart, initializing, 0.0%Q); (PlanStarted, planning, 0.1%Q);
       (Failed, error, 0.1%Q)].
Proof.
  split.
  - apply (C1_progress_checkpoints (Scripted.play Scripted.all_good) "p1"
             (Scripted.demo false) ∅ ∅).
    reflexivity.
  - eapply (C1_progress_checkpoints
              (with_plan (Scripted.play Scripted.all_good)
                 (λ _ _, raise "AdapterError: quota exceeded"))
              "p1" (Scripted.demo false) ∅ ∅); reflexivity.
Defined.

(** C1 as worded fails: once the plan stage has returned the progress is
    0.2, not 0.1. *)
Lemma C1_counterexample :
  ¬ progress_as_claimed
      (history (run (Scripted.play Scripted.all_good) "p1" (Scripted.demo false) ∅ ∅)).
Proof.
  intros H.
  destruct (history (run (Scripted.play Scripted.all_good) "p1" (Scripted.demo false) ∅ ∅)
              !! 2) as [[pt p]|] eqn:E; [|discriminate E].
  pose proof (list_elem_of_lookup_2 _ _ _ E) as Hin.
  injection E as <- <-.
  specialize (H _ _ 0.1%Q Hin eq_refl).
  discriminate H.
Qed.

(** ** Progress along a run *)

(** The record the run leaves is the last entry of its history. *)
Lemma history_ends_with_record agents project_id request reg d :
  ∃ pt, last (history (run agents project_id request reg d))
        = Some (pt, project (run agents project_id request reg d)).
Proof. run_cases; cbn [last]; eauto. Qed.

Ltac q_order :=
  repeat match goal with
  | |- StronglySorted _ _ => constructor
  | |- Forall _ _ => constructor
  | |- _ ∧ _ => split
  end;
  unfold progress_of_entry; cbn [snd p_progress];
  unfold Qle; cbn; lia.

(** Along every run, also one that ends in [error], the progress never
    decreases and stays between 0 and 1. *)
Lemma progress_monotone agents project_id request reg d :
  StronglySorted (λ e e', (progress_of_entry e <= progress_of_entry e')%Q)
    (history (run agents project_id request reg d)).
Proof. run_cases; record_simpl; q_order. Qed.

Lemma progress_in_range agents project_id request reg d :
  Forall (λ e, (0 <= progress_of_entry e)%Q ∧ (progress_of_entry e <= 1)%Q)
    (history (run agents project_id request reg d)).
Proof. run_cases; record_simpl; q_order. Qed.

(** A run that ends with status [completed] ends with progress 1.0 ... *)
Lemma completed_has_full_progress agents project_id request reg d :
  p_status (project (run agents project_id request reg d)) = completed →
  p_progress (project (run agents project_id request reg d)) = 1.0%Q.
Proof. run_cases; record_simpl; first [discriminate | reflexivity]. Qed.

(** ... and a run that ends with progress 1.0 has seen the finalize stage
    return; its status is [completed] unless the listing of the project
    files on line 279 raised. *)
Lemma full_progress_cases agents project_id request reg d :
  (p_progress (project (run agents project_id request reg d)) == 1.0)%Q →
  FinalizeDone ∈ (history (run agents project_id request reg d)).*1
  ∧ (p_status (project (run agents project_id request reg d)) = completed
     ∨ p_status (project (run agents project_id request reg d)) = error
       ∧ ∃ d1 d2 msg,
           get_project_files agents (project_name request) d1 = (Raise msg, d2)).
Proof.
  run_cases; record_simpl; intros Hq;
    try (exfalso; revert Hq; unfold Qeq; cbn; lia);
    (split; [cbn; set_solver | eauto 10]).
Qed.

(** C2. When the listing of the project files on line 279 is the one of
    the file manager, which does not fail: along every run, also one that
    ends in [error], the progress never decreases and stays between 0 and
    1, and it is 1.0 at the end if and only if the status is
    [completed]. *)
Theorem C2_full_progress_iff_completed agents project_id request reg d :
  (∀ name d', get_project_files agents name d' = FileManager.get_project_files name d') →
  StronglySorted (λ e e', (progress_of_entry e <= progress_of_entry e')%Q)
    (history (run agents project_id request reg d))
  ∧ Forall (λ e, (0 <= progress_of_entry e)%Q ∧ (progress_of_entry e <= 1)%Q)
      (history (run agents project_id request reg d))
  ∧ ((p_progress (project (run agents project_id request reg d)) == 1.0)%Q
     ↔ p_status (project (run agents project_id request reg d)) = completed).
Proof.
  intros Hlisting.
  split; [apply progress_monotone|]. split; [apply progress_in_range|]. split.
  - intros Hq. apply full_progress_cases in Hq as (_ & [Hc|(_ & d1 & d2 & msg & Hraise)]);
      [exact Hc|].
    rewrite Hlisting in Hraise. discriminate Hraise.
  - intros Hc. by rewrite (completed_has_full_progress _ _ _ _ _ Hc).
Qed.

(** A run in which every stage returns and the files are listed by the
    file manager. *)
Lemma C2_full_progress_iff_completed_witness :
  p_status (project (run (with_listing (Scripted.play Scripted.all_good)
                            FileManager.get_project_files)
                       "p1" (Scripted.demo false) ∅ ∅)) = completed
  ∧ ((p_progress (project (run (with_listing (Scripted.play Scripted.all_good)
                                  FileManager.get_project_files)
                             "p1" (Scripted.demo false) ∅ ∅)) == 1.0)%Q
     ↔ p_status (project (run (with_listing (Scripted.play Scripted.all_good)
                                 FileManager.get_project_files)
                            "p1" (Scripted.demo false) ∅ ∅)) = completed).
Proof.
  split; [reflexivity|].
  apply (C2_full_progress_iff_completed
           (with_listing (Scripted.play Scripted.all_good) FileManager.get_project_files)
           "p1" (Scripted.demo false) ∅ ∅).
  reflexivity.
Defined.

(** ** A failure of the architecture stage *)

(** C4 (amended). When the plan stage returns and the architecture stage
    raises, the run ends with status [error]; the progress stays at 0.2,
    the value written when the architecture stage was entered, and is
    never larger along the run; [details["error"]] is the text of the
    failure, so it is non-empty whenever that text is. *)
Theorem C4_architecture_failure agents project_id request reg d d0 plan d1 msg d2 :
  clean_project_dir (project_name request) d = (Ok tt, d0) →
  create_project_plan agents project_id request d0 = (Ok plan, d1) →
  create_architecture agents project_id plan d1 = (Raise msg, d2) →
  p_status (project (run agents project_id request reg d)) = error
  ∧ p_progress (project (run agents project_id request reg d)) = 0.2%Q
  ∧ Forall (λ e, (progress_of_entry e <= 0.2)%Q)
      (history (run agents project_id request reg d))
  ∧ p_details (project (run agents project_id request reg d)) !! "error" = Some (VStr msg)
  ∧ marks (history (run agents project_id request reg d)) =
      [(AtStart, initializing, 0.0%Q); (PlanStarted, planning, 0.1%Q);
       (PlanDone, designing_architecture, 0.2%Q); (Failed, error, 0.2%Q)].
Proof.
  intros Hclean Hplan Harch. unfold_run. run_simpl.
  rewrite Hclean. run_simpl.
  rewrite Hplan. run_simpl. rewrite Harch. run_simpl. record_simpl.
  split; [reflexivity|]. split; [reflexivity|]. split; [q_order|].
  split; [apply lookup_insert_eq | reflexivity].
Qed.

(** The project directory of ["demo"] is set up on the empty disk. *)
Lemma clean_project_dir_demo :
  clean_project_dir "demo" ∅ = (Ok tt, (clean_project_dir "demo" ∅).2).
Proof. reflexivity. Qed.

Lemma C4_architecture_failure_witness :
  clean_project_dir "demo" ∅ = (Ok tt, (clean_project_dir "demo" ∅).2)
  ∧ create_project_plan (Scripted.play (Scripted.architecture_fails "AdapterError: quota exceeded"))
      "p1" (Scripted.demo false) (clean_project_dir "demo" ∅).2
    = (Ok (Scripted.artifact "project_overview"), (clean_project_dir "demo" ∅).2)
  ∧ create_architecture (Scripted.play (Scripted.architecture_fails "AdapterError: quota exceeded"))
      "p1" (Scripted.artifact "project_overview") (clean_project_dir "demo" ∅).2
    = (Raise "AdapterError: quota exceeded", (clean_project_dir "demo" ∅).2)
  ∧ p_status (project architecture_failure_run) = error
  ∧ p_progress (project architecture_failure_run) = 0.2%Q
  ∧ p_details (project architecture_failure_run) !! "error"
    = Some (VStr "AdapterError: quota exceeded").
Proof.
  split; [exact clean_project_dir_demo|]. split; [reflexivity|]. split; [reflexivity|].
  destruct (C4_architecture_failure
              (Scripted.play (Scripted.architecture_fails "AdapterError: quota exceeded"))
              "p1" (Scripted.demo false) ∅ ∅ (clean_project_dir "demo" ∅).2
              (Scripted.artifact "project_overview") (clean_project_dir "demo" ∅).2
              "AdapterError: quota exceeded" (clean_project_dir "demo" ∅).2
              clean_project_dir_demo eq_refl eq_refl) as (Hs & Hp & _ & He & _).
  exact (conj Hs (conj Hp He)).
Defined.

(** C4 as worded fails: the progress left by the failed architecture
    stage is 0.2, which is past 0.1. *)
Lemma C4_counterexample :
  ¬ (p_status (project architecture_failure_run) = error
     ∧ (p_progress (project architecture_failure_run) <= 0.1)%Q
     ∧ p_details (project architecture_failure_run) !! "error"
       = Some (VStr "AdapterError: quota exceeded")).
Proof. intros (_ & Hle & _). vm_compute in Hle. by apply Hle. Qed.

(** ** The optional AI stage *)


Lemma wants_ai_true request : include_ai request = Some true → wants_ai request = true.
Proof. unfold wants_ai. by intros ->. Qed.



Ltac run_cases_with H :=
  unfold_run; run_simpl; rewrite ?H; repeat (run_step; run_simpl).



Ltac status_simpl :=
  unfold statuses, points;
  cbn [fmap list_fmap snd fst assign foldl set_status set_progress set_detail
       p_status new_project].

(** C6. When the request has [include_ai = true]: every occurrence of the
    status [creating_documentation] in the history comes after an
    occurrence of [creating_ai_components]; that status is entered as soon
    as the backend stage has returned; and a run that ends with status
    [completed] has gone through both, in this order. *)
Theorem C6_ai_before_documentation agents project_id request reg d :
  include_ai request = Some true →
  (∀ j, statuses (history (run agents project_id request reg d)) !! j
        = Some creating_documentation →
        ∃ i, i < j
             ∧ statuses (history (run agents project_id request reg d)) !! i
               = Some creating_ai_components)
  ∧ (∀ i, points (history (run agents project_id request reg d)) !! i = Some BackendDone →
          points (history (run agents project_id request reg d)) !! S i = Some AIStarted
          ∧ statuses (history (run agents project_id request reg d)) !! S i
            = Some creating_ai_components)
  ∧ (p_status (project (run agents project_id request reg d)) = completed →
     ∃ i j, i < j
       ∧ statuses (history (run agents project_id request reg d)) !! i
         = Some creating_ai_components
       ∧ statuses (history (run agents project_id request reg d)) !! j
         = Some creating_documentation).
Proof.
  intros Hai%wants_ai_true. split; [|split].
  - run_cases_with Hai; status_simpl; intros j Hj;
      do 14 (destruct j as [|j];
             [first [ discriminate Hj | exists 6; split; [lia|reflexivity] ]|]);
      discriminate Hj.
  - run_cases_with Hai; status_simpl; intros i Hi;
      do 14 (destruct i as [|i];
             [first [ discriminate Hi | split; reflexivity ]|]);
      discriminate Hi.
  - run_cases_with Hai; record_simpl; intros Hc; try discriminate Hc.
    exists 6, 8. status_simpl. split; [lia|]. split; reflexivity.
Qed.

Lemma C6_ai_before_documentation_witness :
  include_ai (Scripted.demo true) = Some true
  ∧ p_status (project (run (Scripted.play Scripted.all_good) "p1" (Scripted.demo true) ∅ ∅))
    = completed
  ∧ ∃ i j, i < j
      ∧ statuses (history (run (Scripted.play Scripted.all_good) "p1"
                             (Scripted.demo true) ∅ ∅)) !! i
        = Some creating_ai_components
      ∧ statuses (history (run (Scripted.play Scripted.all_good) "p1"
                             (Scripted.demo true) ∅ ∅)) !! j
        = Some creating_documentation.
Proof.
  split; [reflexivity|]. split; [reflexivity|].
  destruct (C6_ai_before_documentation (Scripted.play Scripted.all_good) "p1"
              (Scripted.demo true) ∅ ∅ eq_refl) as (_ & _ & H).
  apply H. reflexivity.
Defined.

(** ** Updates of [details] *)














(** ** The executors follow the sorted order *)

(** The ["completed_tasks"] of the frontend results are the entries of
    the sorted tasks, one for each and in their order. *)
Lemma frontend_completed_in_sorted_order
    (process_task : string → task → value → M disk generated)
    (create_config_files : string → value → M disk unit)
    (project_id name : string) (tasks : list task) (architecture : value)
    (d d' : disk) (results : dict) :
  FrontendAgent.implement_frontend process_task create_config_files
    project_id name tasks architecture d = (Ok results, d') →
  ∃ ordered rs,
    sorted_tasks tasks = Ok ordered
    ∧ length rs = length ordered
    ∧ results !! "completed_tasks"
      = Some (VList (zip_with FrontendAgent.task_entry ordered rs)).
Proof.
  unfold FrontendAgent.implement_frontend.
  unfold mbind at 1, M_bind at 1, bind at 1.
  destruct (Os.ensure_dir _ d) as [[[]|msg0] d0]; [|discriminate].
  unfold mbind at 1, M_bind at 1, bind at 1, lift_outcome at 1.
  destruct (sorted_tasks tasks) as [ordered|msg]; [|discriminate].
  unfold mbind at 1, M_bind at 1, bind at 1.
  destruct (for_acc _ ordered _ _) as [[acc|msg] d1] eqn:Hloop; [|discriminate].
  apply frontend_loop_order in Hloop as (rs & Hlen & Hacc).
  unfold mbind, M_bind, bind, mret, M_ret, ret.
  destruct (create_config_files name architecture d1) as [[[]|msg] d2]; [|discriminate].
  destruct (FileManager.write_json _ _ _ d2) as [[[]|msg] d3]; [|discriminate].
  intros [= <- <-]. exists ordered, rs. split; [reflexivity|]. split; [exact Hlen|].
  unfold results_dict. rewrite lookup_insert_eq, Hacc. reflexivity.
Qed.

(** The backend loop keeps the tasks whose result is true, in the order
    of the sorted tasks. *)
Lemma backend_loop_order
    (process_task : task → string → value → M disk (option generated))
    (name : string) (architecture : value)
    (ordered : list task) (acc acc' : list value * list string) (d d' : disk) :
  for_acc (λ results t,
             task_result ← process_task t name architecture;
             match task_result with
             | Some r => mret (results.1 ++ [VDict t], results.2 ++ gen_created_files r)
             | None => mret results
             end)
          ordered acc d = (Ok acc', d') →
  ∃ kept, sublist kept ordered ∧ acc'.1 = acc.1 ++ (VDict <$> kept).
Proof.
  revert acc d. induction ordered as [|t ts IH]; intros acc d; cbn [for_acc].
  - intros [= <- <-]. exists []. split; [constructor|]. by rewrite app_nil_r.
  - unfold mbind at 1, M_bind at 1, bind at 1.
    unfold mbind at 1, M_bind at 1, bind at 1.
    destruct (process_task t name architecture d) as [[[r|]|msg] d1]; [| |discriminate].
    + unfold mret, M_ret, ret. intros Hrest.
      apply IH in Hrest as (kept & Hsub & ->). cbn [fst].
      exists (t :: kept). split; [by constructor|].
      by rewrite <-app_assoc.
    + unfold mret, M_ret, ret. intros Hrest.
      apply IH in Hrest as (kept & Hsub & ->).
      exists kept. split; [by constructor|done].
Qed.

(** The clean-up strips both layers for every language tag of the list
    of [_generate_component]. *)
Lemma clean_component_code_every_tag :
  Forall (λ lang, clean_component_code (doubly_fenced lang "x = 1") = "x = 1")
    component_langs.
Proof. repeat constructor. Qed.

(** ** Python strings *)

Lemma append_cons (a : ascii) (s t : string) : String a s +:+ t = String a (s +:+ t).
Proof. reflexivity. Qed.

Lemma append_nil_r (s : string) : s +:+ "" = s.
Proof. induction s as [|a s IH]; [reflexivity|]. by rewrite append_cons, IH. Qed.

Lemma append_assoc (s t u : string) : (s +:+ t) +:+ u = s +:+ (t +:+ u).
Proof. induction s as [|a s IH]; [reflexivity|]. by rewrite !append_cons, IH. Qed.

Lemma rev_app_spec (s t : string) : String.rev_app s t = String.rev s +:+ t.
Proof.
  unfold String.rev. revert t. induction s as [|a s IH]; intros t; [reflexivity|].
  cbn [String.rev_app]. rewrite (IH (String a t)), (IH (String a "")).
  by rewrite append_assoc.
Qed.

Lemma rev_cons (a : ascii) (s : string) :
  String.rev (String a s) = String.rev s +:+ String a "".
Proof. unfold String.rev at 1. cbn [String.rev_app]. apply rev_app_spec. Qed.

Lemma rev_append (s t : string) : String.rev (s +:+ t) = String.rev t +:+ String.rev s.
Proof.
  induction s as [|a s IH].
  - cbn. by rewrite append_nil_r.
  - by rewrite append_cons, !rev_cons, IH, append_assoc.
Qed.

Lemma rev_involutive (s : string) : String.rev (String.rev s) = s.
Proof.
  induction s as [|a s IH]; [reflexivity|].
  by rewrite rev_cons, rev_append, IH.
Qed.

Lemma prefix_nil (s : string) : String.prefix "" s = true.
Proof. by destruct s. Qed.

Lemma prefix_cons (a b : ascii) (p s : string) :
  String.prefix (String a p) (String b s) = Ascii.eqb a b && String.prefix p s.
Proof.
  cbn [String.prefix]. destruct (ascii_dec a b) as [->|Hne].
  - by rewrite Ascii.eqb_refl.
  - apply Ascii.eqb_neq in Hne. by rewrite Hne.
Qed.

Lemma prefix_append (p s : string) : String.prefix p (p +:+ s) = true.
Proof.
  induction p as [|a p IH]; [apply prefix_nil|].
  by rewrite append_cons, prefix_cons, Ascii.eqb_refl, IH.
Qed.

(** A string that starts with [a +:+ b] starts with [a]. *)
Lemma prefix_append_weaken (a b s : string) :
  String.prefix (a +:+ b) s = true → String.prefix a s = true.
Proof.
  revert s. induction a as [|x a IH]; intros s; [intros _; apply prefix_nil|].
  destruct s as [|y s]; [done|].
  rewrite append_cons, !prefix_cons. intros [-> H]%andb_true_iff.
  by rewrite (IH _ H).
Qed.

Lemma startswith_append (p s : string) : Py.startswith (p +:+ s) p = true.
Proof. apply prefix_append. Qed.

Lemma endswith_append (s p : string) : Py.endswith (s +:+ p) p = true.
Proof. unfold Py.endswith. rewrite rev_append. apply prefix_append. Qed.

Lemma lstrip_nonspace (c : ascii) (s : string) :
  Py.isspace c = false → Py.lstrip (String c s) = String c s.
Proof. intros H. cbn [Py.lstrip]. by rewrite H. Qed.

(** [strip] leaves a string alone when its first and last characters are
    not white space. *)
Lemma strip_tight (c c' : ascii) (s : string) :
  Py.isspace c = false → Py.isspace c' = false →
  Py.strip (String c (s +:+ String c' "")) = String c (s +:+ String c' "").
Proof.
  intros Hc Hc'. unfold Py.strip, Py.rstrip. rewrite (lstrip_nonspace _ _ Hc).
  assert (Hrev : String.rev (String c (s +:+ String c' ""))
                 = String c' (String.rev (String c s))).
  { rewrite <-append_cons, rev_append. reflexivity. }
  rewrite Hrev, (lstrip_nonspace _ _ Hc'), <-Hrev. apply rev_involutive.
Qed.

Lemma split_nonempty (sep : ascii) (s : string) : Py.split sep s ≠ [].
Proof.
  induction s as [|c s IH]; cbn [Py.split]; [done|].
  destruct (Ascii.eqb c sep); [done|]. by destruct (Py.split sep s).
Qed.

Lemma split_append (sep : ascii) (s t : string) :
  Py.split sep (s +:+ String sep t) = Py.split sep s ++ Py.split sep t.
Proof.
  induction s as [|c s IH].
  - cbn [String.append]. change ("" +:+ String sep t) with (String sep t).
    cbn [Py.split]. by rewrite Ascii.eqb_refl.
  - rewrite append_cons. cbn [Py.split]. destruct (Ascii.eqb c sep); rewrite IH; [done|].
    pose proof (split_nonempty sep s). by destruct (Py.split sep s).
Qed.

Lemma split_one_line (s : string) :
  PyText.one_line s = true → Py.split "010"%char s = [s].
Proof.
  unfold PyText.one_line. induction s as [|c s IH]; [done|].
  cbn [PyText.every Py.split]. intros [Hc Hs]%andb_true_iff.
  apply negb_true_iff in Hc. rewrite Hc, (IH Hs). done.
Qed.

(** Joining the lines of a text with line breaks gives the text back. *)
Lemma join_split (s : string) : Py.join Py.nl (Py.split "010"%char s) = s.
Proof.
  unfold Py.join. induction s as [|c s IH]; [reflexivity|].
  cbn [Py.split]. pose proof (split_nonempty "010"%char s) as Hne.
  destruct (Ascii.eqb_spec c "010"%char) as [->|Hc].
  - destruct (Py.split "010"%char s) as [|w ws] eqn:E; [done|].
    cbn [String.concat]. cbn [String.concat] in IH. by rewrite IH.
  - destruct (Py.split "010"%char s) as [|w ws] eqn:E; [done|].
    destruct ws as [|w' ws]; cbn [String.concat] in IH |- *.
    + by rewrite IH.
    + by rewrite append_cons, IH.
Qed.

Lemma slice_between {A} (a z : A) (l : list A) : Py.slice_1_m1 (a :: l ++ [z]) = l.
Proof. unfold Py.slice_1_m1. cbn [tail]. apply removelast_last. Qed.

Lemma every_append (p : ascii → bool) (s t : string) :
  PyText.every p (s +:+ t) = PyText.every p s && PyText.every p t.
Proof.
  induction s as [|c s IH]; [reflexivity|].
  rewrite append_cons. cbn [PyText.every]. by rewrite IH, andb_assoc.
Qed.

(** The shape of a fenced text. *)
Lemma fenced_shape (tag body : string) :
  fenced tag body = (fence +:+ tag) +:+ String "010"%char (body +:+ String "010"%char fence).
Proof. unfold fenced, Py.nl. by rewrite !append_assoc. Qed.

Lemma strip_fenced (tag body : string) : Py.strip (fenced tag body) = fenced tag body.
Proof.
  assert (fenced tag body
          = String "`"%char (("``" +:+ tag +:+ Py.nl +:+ body +:+ Py.nl +:+ "``")
                             +:+ String "`"%char "")) as ->.
  { unfold fenced, fence. rewrite !append_assoc. reflexivity. }
  by apply strip_tight.
Qed.

Lemma startswith_fenced (tag body : string) : Py.startswith (fenced tag body) fence = true.
Proof. unfold fenced. apply startswith_append. Qed.

Lemma endswith_fenced (tag body : string) : Py.endswith (fenced tag body) fence = true.
Proof.
  assert (fenced tag body = (fence +:+ tag +:+ Py.nl +:+ body +:+ Py.nl) +:+ fence) as ->.
  { unfold fenced. by rewrite !append_assoc. }
  apply endswith_append.
Qed.

(** Dropping the first and the last line of a fenced text leaves its body. *)
Lemma drop_fence_lines_fenced (tag body : string) :
  PyText.one_line tag = true → drop_fence_lines (fenced tag body) = body.
Proof.
  intros Htag. unfold drop_fence_lines.
  rewrite fenced_shape, !split_append.
  rewrite (split_one_line (fence +:+ tag)), (split_one_line fence).
  - cbn [app]. rewrite slice_between. apply join_split.
  - reflexivity.
  - unfold PyText.one_line in *. by rewrite every_append, Htag.
Qed.

Lemma clean_step_fenced (opening tag body : string) :
  PyText.one_line tag = true →
  clean_step opening (fenced tag body)
  = if Py.startswith (fenced tag body) opening then body else fenced tag body.
Proof.
  intros Htag. unfold clean_step. rewrite endswith_fenced, andb_true_r.
  by rewrite drop_fence_lines_fenced.
Qed.

Lemma clean_step_unfenced (lang code : string) :
  Py.startswith code fence = false → clean_step (fence +:+ lang) code = code.
Proof.
  intros H. unfold clean_step.
  destruct (Py.startswith code (fence +:+ lang)) eqn:E; [|reflexivity].
  apply prefix_append_weaken in E. unfold Py.startswith in H. congruence.
Qed.

Lemma clean_steps_unfenced (langs : list string) (code : string) :
  Py.startswith code fence = false →
  fold_left (λ code lang, clean_step (fence +:+ lang) code) langs code = code.
Proof.
  intros H. induction langs as [|lang langs IH]; [reflexivity|].
  cbn [fold_left]. by rewrite clean_step_unfenced.
Qed.

(** ** The file system *)

Lemma grows_refl (d : disk) : grows d d.
Proof. intros q. by left. Qed.

Lemma grows_trans (d1 d2 d3 : disk) : grows d1 d2 → grows d2 d3 → grows d1 d3.
Proof.
  intros H12 H23 q. destruct (H12 q) as [E12|[N12 D12]], (H23 q) as [E23|[N23 D23]].
  - left. congruence.
  - right. split; congruence.
  - right. split; congruence.
  - congruence.
Qed.

Lemma grows_insert_dir (d : disk) (q : path) : d !! q = None → grows d (<[q := Dir]> d).
Proof.
  intros Hq k. destruct (decide (k = q)) as [->|Hne].
  - right. by rewrite lookup_insert_eq.
  - left. by rewrite lookup_insert_ne.
Qed.

Lemma grows_is_dir (d d' : disk) (q : path) :
  grows d d' → Os.is_dir d q = true → Os.is_dir d' q = true.
Proof.
  intros Hg. unfold Os.is_dir, Os.node_at. destruct q as [|c q]; [done|].
  destruct (Hg (c :: q)) as [->|[-> ->]]; done.
Qed.

(** A disk that grows keeps its documents and gets no new one. *)
Lemma grows_file (d d' : disk) (q : path) (doc : document) :
  grows d d' → d' !! q = Some (File doc) ↔ d !! q = Some (File doc).
Proof.
  intros Hg. destruct (Hg q) as [->|[Hn Hd]]; [done|].
  rewrite Hn, Hd. split; discriminate.
Qed.

Lemma walk_mono (d d' : disk) (comps : list string) (cur q : path) :
  (∀ k, Os.is_dir d k = true → Os.is_dir d' k = true) →
  Os.walk d cur comps = Some q → Os.walk d' cur comps = Some q.
Proof.
  intros Hdir. revert cur. induction comps as [|c rest IH]; intros cur; cbn [Os.walk]; [done|].
  destruct (decide (c = "")); [apply IH|].
  destruct (Os.is_dir d cur) eqn:Hcur; [|discriminate].
  rewrite (Hdir _ Hcur). repeat case_decide; apply IH.
Qed.

Lemma walk_names (d : disk) (comps : list string) (cur : path) :
  Os.walk d cur (filter (λ c, c ≠ "") comps) = Os.walk d cur comps.
Proof.
  revert cur. induction comps as [|c rest IH]; intros cur; [done|].
  rewrite filter_cons. cbn [Os.walk]. destruct (decide (c = "")) as [->|Hc].
  - rewrite decide_False by (by intros []). apply IH.
  - rewrite decide_True by done. cbn [Os.walk]. rewrite decide_False by done.
    destruct (Os.is_dir d cur); [|done]. repeat case_decide; apply IH.
Qed.

Lemma walk_app (d : disk) (a b : list string) (cur : path) :
  Os.walk d cur (a ++ b) = Os.walk d cur a ≫= λ q, Os.walk d q b.
Proof.
  revert cur. induction a as [|c rest IH]; intros cur; cbn [app Os.walk]; [done|].
  destruct (decide (c = "")); [apply IH|].
  destruct (Os.is_dir d cur); [|done]. repeat case_decide; apply IH.
Qed.

(** Entering and creating directories only makes the disk grow, and
    leads where the walk on the disk it leaves leads. *)
Lemma make_path_grows (comps : list string) (cur : path) (d d' : disk) (r : outcome path) :
  Os.make_path comps cur d = (r, d') → grows d d'.
Proof.
  revert cur d. induction comps as [|c rest IH]; intros cur d; cbn [Os.make_path].
  - intros [= <- <-]. apply grows_refl.
  - destruct (Os.is_dir d cur); [|intros [= <- <-]; apply grows_refl].
    destruct (decide (c = ".")); [apply IH|].
    destruct (decide (c = "..")); [apply IH|].
    destruct (d !! (cur ++ [c])) eqn:Hc; [apply IH|].
    intros H%IH. eapply grows_trans; [|exact H]. by apply grows_insert_dir.
Qed.

Lemma make_path_walk (comps : list string) (cur q : path) (d d' : disk) :
  Forall (λ c, c ≠ "") comps →
  Os.make_path comps cur d = (Ok q, d') → Os.walk d' cur comps = Some q.
Proof.
  intros Hne. revert cur d.
  induction Hne as [|c rest Hc Hrest IH]; intros cur d; cbn [Os.make_path Os.walk].
  - by intros [= <- <-].
  - rewrite (decide_False (P := c = "")) by done.
    destruct (Os.is_dir d cur) eqn:Hcur; [|discriminate].
    assert (Hkeep : ∀ d1 cur', Os.make_path rest cur' d1 = (Ok q, d') → grows d d1 →
                      Os.is_dir d' cur = true).
    { intros d1 cur' H1 Hg. apply make_path_grows in H1.
      eapply grows_is_dir; [exact (grows_trans _ _ _ Hg H1)|exact Hcur]. }
    destruct (decide (c = ".")).
    { intros H. rewrite (Hkeep _ _ H (grows_refl d)). by apply IH in H. }
    destruct (decide (c = "..")).
    { intros H. rewrite (Hkeep _ _ H (grows_refl d)). by apply IH in H. }
    destruct (d !! (cur ++ [c])) eqn:Hnode.
    { intros H. rewrite (Hkeep _ _ H (grows_refl d)). by apply IH in H. }
    intros H. rewrite (Hkeep _ _ H (grows_insert_dir _ _ Hnode)). by apply IH in H.
Qed.

Lemma names_nonempty (p : string) : Forall (λ c, c ≠ "") (Os.names p).
Proof. unfold Os.names. apply Forall_forall. by intros c [? _]%list_elem_of_filter. Qed.

Lemma names_split (p tail : string) (rhead : list string) :
  reverse (Os.names p) = tail :: rhead →
  Os.names p = reverse rhead ++ [tail]
  ∧ tail ≠ "" ∧ Forall (λ c, c ≠ "") (reverse rhead).
Proof.
  intros H. assert (Hn : Os.names p = reverse rhead ++ [tail]).
  { rewrite <-(reverse_involutive (Os.names p)), H. by rewrite reverse_cons. }
  pose proof (names_nonempty p) as Hall. rewrite Hn in Hall.
  apply Forall_app in Hall as [Hhead Htail]. split; [done|]. split; [|done].
  by inversion Htail.
Qed.

(** [os.makedirs] only makes the disk grow, also when it raises. *)
Lemma makedirs_grows (p : string) (d d' : disk) (r : outcome unit) :
  Os.makedirs p d = (r, d') → grows d d'.
Proof.
  unfold Os.makedirs. destruct (reverse (Os.names p)) as [|tail rhead].
  { intros [= <- <-]. apply grows_refl. }
  destruct (Os.make_path (reverse rhead) [] d) as [[cur|msg] d1] eqn:Hhead;
    apply make_path_grows in Hhead; [|by intros [= <- <-]].
  repeat case_match; intros [= <- <-]; try done.
  eapply grows_trans; [exact Hhead|]. by apply grows_insert_dir.
Qed.

Lemma ensure_dir_grows (p : string) (d d' : disk) (r : outcome unit) :
  Os.ensure_dir p d = (r, d') → grows d d'.
Proof.
  unfold Os.ensure_dir. destruct (Os.path_exists p d).
  - intros [= <- <-]. apply grows_refl.
  - apply makedirs_grows.
Qed.

Lemma node_at_snoc (d : disk) (cur : path) (c : string) :
  Os.node_at d (cur ++ [c]) = d !! (cur ++ [c]).
Proof. unfold Os.node_at. destruct (cur ++ [c]) eqn:E; [by destruct cur|done]. Qed.

Lemma node_at_insert_ne (d : disk) (q k : path) (n : node) :
  k ≠ q → Os.node_at (<[q := n]> d) k = Os.node_at d k.
Proof. intros Hne. unfold Os.node_at. destruct k; [done|]. by rewrite lookup_insert_ne. Qed.

(** A write that returns has created the directories on the way and put
    the document at the place the path names, which was no directory. *)
Lemma write_returns (name rel : string) (doc : document) (d d' : disk) :
  FileManager.write name rel doc d = (Ok tt, d') →
  ∃ q d1, grows d d1 ∧ Os.is_dir d1 q = false ∧ d' = <[q := File doc]> d1
          ∧ Os.stat d' (FileManager.document_path name rel) = Some (q, File doc)
          ∧ last q = last (Os.names (FileManager.document_path name rel)).
Proof.
  unfold FileManager.write. set (p := FileManager.document_path name rel).
  destruct (reverse (Os.names p)) as [|tail rhead] eqn:Hrev; [discriminate|].
  apply names_split in Hrev as (Hnames & Htail & Hhead).
  destruct (Os.make_path (reverse rhead) [] d) as [[cur|msg] d1] eqn:Hmake; [|discriminate].
  destruct (Os.is_dir d1 cur) eqn:Hcur; cbn [negb]; [|discriminate].
  case_bool_decide as Hdots; cbn [orb]; [discriminate|].
  destruct (Py.endswith p "/") eqn:Hslash; [discriminate|].
  intros Hw. exists (cur ++ [tail]), d1.
  assert (Hq : Os.is_dir d1 (cur ++ [tail]) = false
               ∧ d' = <[cur ++ [tail] := File doc]> d1).
  { unfold Os.is_dir. rewrite node_at_snoc.
    destruct (d1 !! (cur ++ [tail])) as [[?|]|]; by inversion Hw. }
  destruct Hq as [Hq ->]. split; [by eapply make_path_grows|]. split; [exact Hq|].
  split; [reflexivity|].
  assert (Hdirs : ∀ k, Os.is_dir d1 k = true
                       → Os.is_dir (<[cur ++ [tail] := File doc]> d1) k = true).
  { intros k Hk. unfold Os.is_dir. rewrite node_at_insert_ne; [exact Hk|].
    intros ->. congruence. }
  unfold Os.stat. rewrite decide_False.
  2:{ intros Hp. rewrite Hp in Hnames. by destruct (reverse rhead). }
  unfold Os.components. rewrite <-walk_names. fold (Os.components p). fold (Os.names p).
  rewrite Hnames, walk_app.
  rewrite (walk_mono _ _ _ _ _ Hdirs (make_path_walk _ _ _ _ _ Hhead Hmake)).
  cbn [mbind option_bind Os.walk]. rewrite (decide_False (P := tail = "")) by done.
  rewrite (Hdirs _ Hcur).
  rewrite (decide_False (P := tail = ".")) by (intros ->; apply Hdots; by left).
  rewrite (decide_False (P := tail = "..")) by (intros ->; apply Hdots; by right).
  cbn [mbind option_bind]. rewrite node_at_snoc, lookup_insert_eq.
  cbn [mbind option_bind]. rewrite Hslash. split; [done|]. by rewrite !last_snoc.
Qed.

(** A write that raises has written no document. *)
Lemma write_raises (name rel : string) (doc : document) (d d' : disk) (msg : string) :
  FileManager.write name rel doc d = (Raise msg, d') → grows d d'.
Proof.
  unfold FileManager.write.
  destruct (reverse (Os.names _)) as [|tail rhead]; [intros [= _ <-]; apply grows_refl|].
  destruct (Os.make_path (reverse rhead) [] d) as [[cur|msg'] d1] eqn:Hmake;
    apply make_path_grows in Hmake; [|by intros [= _ <-]].
  repeat case_match; intros H'; inversion H'; by subst.
Qed.

(** What is written can be read. *)
Lemma read_document_written (name rel : string) (doc : document) (d d' : disk) :
  FileManager.write name rel doc d = (Ok tt, d') → read_document name rel d' = Some doc.
Proof.
  intros (q & d1 & _ & _ & _ & Hstat & _)%write_returns.
  unfold read_document. by rewrite Hstat.
Qed.

(** The place a walk leads to does not depend on the disk. *)
Lemma walk_det (d d' : disk) (comps : list string) (cur q q' : path) :
  Os.walk d cur comps = Some q → Os.walk d' cur comps = Some q' → q = q'.
Proof.
  revert cur. induction comps as [|c rest IH]; intros cur; cbn [Os.walk]; [congruence|].
  destruct (decide (c = "")); [apply IH|].
  destruct (Os.is_dir d cur), (Os.is_dir d' cur); try discriminate.
  destruct (decide (c = ".")); [apply IH|]. destruct (decide (c = "..")); apply IH.
Qed.

Lemma stat_spec (d : disk) (p : string) (q : path) (n : node) :
  Os.stat d p = Some (q, n)
  ↔ p ≠ "" ∧ Os.walk d [] (Os.components p) = Some q ∧ Os.node_at d q = Some n
    ∧ (Py.endswith p "/" = true → n = Dir).
Proof.
  unfold Os.stat. split.
  - case_decide; [discriminate|].
    destruct (Os.walk d [] (Os.components p)) as [q'|]; [|discriminate].
    cbn [mbind option_bind].
    destruct (Os.node_at d q') as [[doc|]|] eqn:Hn; cbn [mbind option_bind]; [| |discriminate].
    + destruct (Py.endswith p "/"); [discriminate|]. by intros [= <- <-].
    + by intros [= <- <-].
  - intros (Hp & -> & Hn & Hslash). rewrite decide_False by done.
    cbn [mbind option_bind]. rewrite Hn. cbn [mbind option_bind].
    destruct n as [doc|]; [|done].
    destruct (Py.endswith p "/"); [|done]. by specialize (Hslash eq_refl).
Qed.

Lemma stat_walk (d : disk) (p : string) (q : path) (n : node) :
  Os.stat d p = Some (q, n) →
  p ≠ "" ∧ Os.walk d [] (Os.components p) = Some q ∧ Os.node_at d q = Some n.
Proof. intros (? & ? & ? & _)%stat_spec. done. Qed.

Lemma lookup_remove_below (q k : path) (d : disk) :
  Os.remove_below q d !! k = if decide (Os.strictly_below q k) then None else d !! k.
Proof.
  unfold Os.remove_below. destruct (d !! k) as [n|] eqn:Hk.
  - case_decide as Hb.
    + apply map_lookup_filter_None. right. intros n' _. cbn. by intros [].
    + apply map_lookup_filter_Some. by split.
  - case_decide; apply map_lookup_filter_None; by left.
Qed.

(** [os.rmdir] removes one place, and nothing when it raises. *)
Lemma rmdir_cases (p : string) (d d' : disk) (r : outcome unit) :
  Os.rmdir p d = (r, d') →
  match r with
  | Ok _ => ∃ q, Os.stat d p = Some (q, Dir) ∧ q ≠ [] ∧ d' = delete q d
  | Raise _ => d' = d
  end.
Proof.
  unfold Os.rmdir. destruct (Os.stat d p) as [[q [doc|]]|] eqn:Hstat;
    try (by intros [= <- <-]).
  repeat case_decide; try (by intros [= <- <-]).
  destruct (Os.is_empty_dir q d); intros [= <- <-]; [|done]. by exists q.
Qed.

(** [shutil.rmtree] on a directory removes everything below it, and the
    directory itself unless the final [os.rmdir] raises; on anything else
    it raises and removes nothing. *)
Lemma rmtree_cases (p : string) (d d' : disk) (r : outcome unit) :
  Os.rmtree p d = (r, d') →
  match Os.stat d p with
  | Some (q, Dir) =>
      match r with
      | Ok _ =>
          q ≠ []
          ∧ (∀ k, d' !! k = if decide (q `prefix_of` k) then None else d !! k)
          ∧ Os.path_exists p d' = false
      | Raise _ => ∀ k, d' !! k = if decide (Os.strictly_below q k) then None else d !! k
      end
  | Some (q, File _) => r = Raise (Os.ENOTDIR p) ∧ d' = d
  | None => r = Raise (Os.ENOENT p) ∧ d' = d
  end.
Proof.
  unfold Os.rmtree. destruct (Os.stat d p) as [[q [doc|]]|] eqn:Hstat;
    try (by intros [= <- <-]).
  intros Hrm%rmdir_cases. destruct r as [[]|msg].
  - destruct Hrm as (q' & Hstat' & Hq' & ->).
    apply stat_walk in Hstat as (Hp & Hwalk & _).
    pose proof Hstat' as (_ & Hwalk' & _)%stat_walk.
    assert (q' = q) as -> by (by eapply walk_det).
    split; [done|]. split.
    + intros k. destruct (decide (k = q)) as [->|Hne].
      * rewrite lookup_delete_eq. by rewrite decide_True.
      * rewrite lookup_delete_ne, lookup_remove_below by done.
        destruct (decide (q `prefix_of` k)) as [Hpre|Hpre].
        -- by rewrite decide_True by (by split).
        -- by rewrite decide_False by (by intros [? ?]).
    + unfold Os.path_exists, Os.stat. rewrite decide_False by done.
      destruct (Os.walk (delete q (Os.remove_below q d)) [] (Os.components p))
        as [q''|] eqn:Hwalk''; [|done].
      assert (q'' = q) as -> by (by eapply walk_det).
      cbn [mbind option_bind]. unfold Os.node_at. destruct q; [done|].
      by rewrite lookup_delete_eq.
  - subst d'. intros k. apply lookup_remove_below.
Qed.

(** What is at a path stays there when the disk grows and when a
    document is put at another place that is no directory. *)
Lemma stat_grows (d d' : disk) (p : string) (q : path) (n : node) :
  grows d d' → Os.stat d p = Some (q, n) → Os.stat d' p = Some (q, n).
Proof.
  intros Hg (Hp & Hwalk & Hnode & Hslash)%stat_spec. apply stat_spec.
  split; [done|]. split; [|split; [|done]].
  - exact (walk_mono d d' _ _ _ (λ k, grows_is_dir _ _ k Hg) Hwalk).
  - unfold Os.node_at in *. destruct q as [|c q]; [done|].
    destruct (Hg (c :: q)) as [->|[Hnone _]]; [done|congruence].
Qed.

Lemma stat_insert_file (d : disk) (p : string) (q k : path) (n : node) (doc : document) :
  Os.is_dir d k = false → k ≠ q →
  Os.stat d p = Some (q, n) → Os.stat (<[k := File doc]> d) p = Some (q, n).
Proof.
  intros Hk Hne (Hp & Hwalk & Hnode & Hslash)%stat_spec. apply stat_spec.
  split; [done|]. split; [|split; [|done]].
  - apply (walk_mono d); [|done]. intros k' Hk'. unfold Os.is_dir.
    rewrite node_at_insert_ne; [exact Hk'|]. intros ->. congruence.
  - by rewrite node_at_insert_ne.
Qed.

(** The names of a joined path. *)
Lemma endswith_slash (a : string) : Py.endswith a "/" = true → ∃ a', a = a' +:+ "/".
Proof.
  unfold Py.endswith. change (String.rev "/") with "/". intros H.
  destruct (String.rev a) as [|c r] eqn:E; [done|].
  rewrite prefix_cons in H. apply andb_true_iff in H as [Hc%Ascii.eqb_eq _]. subst c.
  exists (String.rev r). rewrite <-(rev_involutive a), E.
  change (String "/" r) with ("/" +:+ r). by rewrite rev_append.
Qed.

Lemma names_append_slash (a b : string) :
  Os.names (a +:+ "/" +:+ b) = Os.names a ++ Os.names b.
Proof.
  unfold Os.names, Os.components. change ("/" +:+ b) with (String "/" b).
  by rewrite split_append, filter_app.
Qed.

Lemma names_join (a b : string) :
  Py.startswith b "/" = false → Os.names (Os.join a b) = Os.names a ++ Os.names b.
Proof.
  intros Hb. unfold Os.join. rewrite Hb. case_bool_decide as Ha; cbn [orb].
  - by subst a.
  - destruct (Py.endswith a "/") eqn:Hslash; [|apply names_append_slash].
    apply endswith_slash in Hslash as [a' ->].
    rewrite append_assoc. rewrite names_append_slash.
    replace (a' +:+ "/") with (a' +:+ "/" +:+ "") by (by rewrite append_nil_r).
    rewrite names_append_slash. cbn. by rewrite app_nil_r.
Qed.

(** ** Persistence of the stage artifacts *)

(** The plan is written under the project name before the stage
    returns. *)
Lemma plan_persisted plan_response project_id request plan d d' :
  ProjectManager.create_project_plan plan_response project_id request d = (Ok plan, d') →
  read_document (project_name request) "project_plan.json" d' = Some (Json (VDict plan)).
Proof.
  unfold ProjectManager.create_project_plan, FileManager.write_json, mbind, M_bind, bind,
    lift_outcome, mret, M_ret, ret.
  destruct (plan_response project_id request) as [p|msg]; [|discriminate].
  destruct (Os.ensure_dir _ d) as [[[]|msg] d0]; [|discriminate].
  destruct (FileManager.write _ _ _ d0) as [[[]|msg] d1] eqn:Hw; [|discriminate].
  intros [= <- <-]. by apply read_document_written in Hw.
Qed.


(** C3. The architecture stage does not write its document under the
    name of the project: when the plan has no ["project_name"] entry, as
    the plan the prompt asks for, the stage returns once
    [architecture.json] is written under [project_<id>] (line 313), and
    this is the only document it writes or changes.  So the stage returns,
    and the coordinator advances, while the namespace of the project does
    not hold the architecture. *)
Theorem C3_architecture_outside_namespace
    (architecture_response : string → dict → outcome dict)
    (project_id : string) (project_plan architecture : dict) (d d' : disk) :
  project_plan !! "project_name" = None →
  ProjectManager.create_architecture architecture_response project_id project_plan d
  = (Ok architecture, d') →
  read_document ("project_" +:+ project_id) "architecture.json" d'
  = Some (Json (VDict architecture))
  ∧ ∃ q, Os.stat d' (FileManager.document_path ("project_" +:+ project_id)
                       "architecture.json")
         = Some (q, File (Json (VDict architecture)))
         ∧ ∀ k doc, k ≠ q → d' !! k = Some (File doc) ↔ d !! k = Some (File doc).
Proof.
  intros Hname. unfold ProjectManager.create_architecture, FileManager.write_json,
    mbind, M_bind, bind, lift_outcome, mret, M_ret, ret, get_or.
  destruct (architecture_response project_id project_plan) as [a|msg]; [|discriminate].
  rewrite Hname. cbn [default].
  destruct (FileManager.write _ _ _ d) as [[[]|msg] d1] eqn:Hw; [|discriminate].
  intros [= <- <-]. split; [by apply read_document_written in Hw|].
  apply write_returns in Hw as (q & d0 & Hgrows & _ & -> & Hstat & _).
  exists q. split; [exact Hstat|]. intros k doc Hk.
  rewrite lookup_insert_ne by done. by apply grows_file.
Qed.

(** The plan and the architecture stage of the project manager, one
    after the other, for the project ["demo"] with the identifier ["p1"]:
    the architecture is under [project_p1], and the project directory
    holds the plan only. *)
Lemma C3_architecture_outside_namespace_witness :
  Demo.plan !! "project_name" = None
  ∧ plan_alone.1 = Ok Demo.plan
  ∧ architecture_after_plan.1 = Ok Demo.architecture
  ∧ read_document "project_p1" "architecture.json" architecture_after_plan.2
    = Some (Json (VDict Demo.architecture))
  ∧ read_document "demo" "architecture.json" architecture_after_plan.2 = None
  ∧ (FileManager.get_project_files "demo" architecture_after_plan.2).1
    = Ok (VList [VStr "project_plan.json"]).
Proof.
  split; [reflexivity|]. split; [reflexivity|]. split; [reflexivity|].
  split; [|split; reflexivity].
  refine (proj1 (C3_architecture_outside_namespace (λ _ _, Ok Demo.architecture)
                   "p1" Demo.plan Demo.architecture plan_alone.2
                   architecture_after_plan.2 eq_refl _)).
  reflexivity.
Defined.

(** ** Deletion *)

(** The disk on which the project ["demo"] has its README. *)
Lemma disk_with_readme_spec :
  FileManager.write_file "demo" "README.md" "# demo" ∅ = (Ok tt, disk_with_readme).
Proof. reflexivity. Qed.

(** C9. Deleting an identifier that is not in the registry answers 404
    and changes neither the registry nor the disk.  Deleting a known
    identifier removes its entry, so that a status query for it answers
    404, when there is nothing at the path of the project or when
    [shutil.rmtree] returns; the directory is then gone with everything
    below it, and every other place is left as it is.  When
    [shutil.rmtree] raises, the exception leaves the handler before the
    entry is removed: the entry stays and a status query is still
    answered.  This happens when the path of the project is a regular
    file, as for the name ["demo/README.md"] once the project ["demo"] has
    its README.  The directory that is removed is the one the name leads
    to from the projects root: for the name [""] it is the root itself,
    with the directories of all projects. *)
Theorem C9_delete_project :
  (∀ project_id reg d, reg !! project_id = None →
     delete_project project_id reg d = (HTTPException 404 "Project not found", reg, d))
  ∧ (∀ project_id reg d p, reg !! project_id = Some p →
       match Os.stat d (project_path (p_name p)) with
       | None =>
           delete_project project_id reg d
           = (Success "Project deleted successfully", delete project_id reg, d)
       | Some (q, File _) =>
           delete_project project_id reg d
           = (Unhandled (Os.ENOTDIR (project_path (p_name p))), reg, d)
       | Some (q, Dir) =>
           let '(answer, reg', d') := delete_project project_id reg d in
           (answer = Success "Project deleted successfully"
            ∧ reg' = delete project_id reg
            ∧ (∀ k, d' !! k = if decide (q `prefix_of` k) then None else d !! k)
            ∧ Os.path_exists (project_path (p_name p)) d' = false)
           ∨ (∃ msg, answer = Unhandled msg
                ∧ reg' = reg
                ∧ ∀ k, d' !! k = if decide (Os.strictly_below q k) then None else d !! k)
       end)
  ∧ (∀ project_id reg d,
       let '(answer, reg', d') := delete_project project_id reg d in
       match answer with
       | Success _ =>
           get_project_status project_id reg' = HTTPException 404 "Project not found"
           ∧ ∀ other, other ≠ project_id → reg' !! other = reg !! other
       | _ => reg' = reg
       end)
  ∧ (let reg := create_project "p2" (named "demo/README.md") ∅ in
     delete_project "p2" reg disk_with_readme
     = (Unhandled "[Errno 20] Not a directory: '/app/projects/demo/README.md'",
        reg, disk_with_readme)
     ∧ get_project_status "p2" reg
       = Success (status_answer "p2" (new_project "p2" (named "demo/README.md"))))
  ∧ (let reg := create_project "p3" (named "") ∅ in
     (delete_project "p3" reg disk_with_readme).1
     = (Success "Project deleted successfully", delete "p3" reg)
     ∧ read_document "demo" "README.md" disk_with_readme = Some (Text "# demo")
     ∧ read_document "demo" "README.md" (delete_project "p3" reg disk_with_readme).2 = None
     ∧ Os.path_exists projects_root_dir (delete_project "p3" reg disk_with_readme).2 = false).
Proof.
  split; [|split; [|split; [|split]]].
  - intros project_id reg d Hp. unfold delete_project. by rewrite Hp.
  - intros project_id reg d p Hp. unfold delete_project. rewrite Hp.
    unfold Os.path_exists.
    destruct (Os.stat d (project_path (p_name p))) as [[q n]|] eqn:Hstat; [|done].
    destruct (Os.rmtree (project_path (p_name p)) d) as [r d'] eqn:Hrm.
    apply rmtree_cases in Hrm. rewrite Hstat in Hrm.
    destruct n as [doc|].
    + by destruct Hrm as [-> ->].
    + destruct r as [[]|msg].
      * left. by destruct Hrm as (_ & Hk & Hex).
      * right. by exists msg.
  - intros project_id reg d. unfold delete_project.
    destruct (reg !! project_id) as [p|] eqn:Hp; [|done].
    assert (Hdel : get_project_status project_id (delete project_id reg)
                   = HTTPException 404 "Project not found"
                   ∧ ∀ other, other ≠ project_id
                              → delete project_id reg !! other = reg !! other).
    { split; [unfold get_project_status; by rewrite lookup_delete_eq|].
      intros other Hne. by rewrite lookup_delete_ne. }
    destruct (Os.path_exists _ d); [|exact Hdel].
    by destruct (Os.rmtree _ d) as [[[]|msg] d'].
  - cbv zeta. split; reflexivity.
  - cbv zeta. repeat split; reflexivity.
Qed.

(** ** Clean-up of generated code, in general *)

Lemma clean_step_open_ended (opening code : string) :
  Py.endswith code fence = false → clean_step opening code = code.
Proof. intros H. unfold clean_step. by rewrite H, andb_false_r. Qed.

Lemma clean_step_bare_unfenced (code : string) :
  Py.startswith code fence = false → clean_step fence code = code.
Proof. intros H. unfold clean_step. by rewrite H. Qed.

(** X1. A response that, once trimmed, does not both start and end with a
    fence is only trimmed, whatever the language tags tested. *)
Theorem clean_code_unfenced (langs : list string) (text : string) :
  Py.startswith (Py.strip text) fence && Py.endswith (Py.strip text) fence = false →
  clean_code langs text = Py.strip text.
Proof.
  intros [Hs|He]%andb_false_iff; unfold clean_code.
  - rewrite (clean_step_bare_unfenced _ Hs). by apply clean_steps_unfenced.
  - rewrite (clean_step_open_ended _ _ He).
    induction langs as [|lang langs IH]; [reflexivity|].
    cbn [fold_left]. by rewrite (clean_step_open_ended _ _ He).
Qed.

Lemma clean_code_unfenced_witness :
  Py.startswith (Py.strip "  const a = `x`;  ") fence
    && Py.endswith (Py.strip "  const a = `x`;  ") fence = false
  ∧ clean_component_code "  const a = `x`;  " = "const a = `x`;".
Proof.
  split; [reflexivity|].
  unfold clean_component_code.
  rewrite (clean_code_unfenced component_langs "  const a = `x`;  " eq_refl).
  reflexivity.
Defined.

(** X2. A response made of one fence, with or without a language tag on
    its opening line, around a body that does not itself start with a
    fence is reduced to exactly that body, line breaks included. *)
Theorem clean_code_single_fence (langs : list string) (tag body : string) :
  PyText.one_line tag = true →
  Py.startswith body fence = false →
  clean_code langs (fenced tag body) = body.
Proof.
  intros Htag Hbody. unfold clean_code.
  rewrite strip_fenced, (clean_step_fenced fence tag body Htag), startswith_fenced.
  by apply clean_steps_unfenced.
Qed.

Lemma clean_code_single_fence_witness :
  PyText.one_line "jsx" = true
  ∧ Py.startswith ("import x;" +:+ Py.nl +:+ Py.nl +:+ "export default x;") fence = false
  ∧ clean_component_code
      (fenced "jsx" ("import x;" +:+ Py.nl +:+ Py.nl +:+ "export default x;"))
    = "import x;" +:+ Py.nl +:+ Py.nl +:+ "export default x;".
Proof.
  split; [reflexivity|]. split; [reflexivity|].
  exact (clean_code_single_fence component_langs "jsx"
           ("import x;" +:+ Py.nl +:+ Py.nl +:+ "export default x;") eq_refl eq_refl).
Defined.

(** X3. The clean-up of the [index.html] response removes exactly one
    fence: a fenced response is reduced to its body whatever the body is,
    so a fence inside the body is kept. *)
Theorem clean_index_html_one_layer (tag body : string) :
  PyText.one_line tag = true →
  clean_index_html (fenced tag body) = body.
Proof.
  intros Htag. unfold clean_index_html.
  rewrite strip_fenced, endswith_fenced, startswith_fenced, !andb_true_r.
  rewrite (drop_fence_lines_fenced tag body Htag). by destruct (Py.startswith _ _).
Qed.

Lemma clean_index_html_one_layer_witness :
  PyText.one_line "" = true
  ∧ clean_index_html (doubly_fenced "html" "<html></html>") = fenced "html" "<html></html>".
Proof.
  split; [reflexivity|].
  exact (clean_index_html_one_layer "" (fenced "html" "<html></html>") eq_refl).
Defined.

(** ** The keyword rules of the frontend agent *)

Lemma contains_here (s sub : string) :
  String.prefix sub s = true → PyText.contains s sub = true.
Proof. intros H. destruct s; cbn [PyText.contains]; by rewrite H. Qed.

(** A text that contains [c] followed by [sub] contains [sub]. *)
Lemma contains_tail (s : string) (c : ascii) (sub : string) :
  PyText.contains s (String c sub) = true → PyText.contains s sub = true.
Proof.
  induction s as [|x s IH]; cbn [PyText.contains].
  - by destruct sub.
  - intros [H|H]%orb_true_iff; apply orb_true_iff; right.
    + rewrite prefix_cons in H. apply andb_true_iff in H as [_ H].
      by apply contains_here.
    + by apply IH.
Qed.

(** X4. [_generate_styles] never chooses SCSS: a description that contains
    "scss" contains "css", which is tested first.  The stylesheet is always
    written to [src/styles/main.css]. *)
Theorem styles_never_scss (description : string) :
  FrontendRules.styling_approach description ≠ "SCSS"
  ∧ FrontendRules.styles_file_path description = "src/styles/main.css".
Proof.
  assert (H : FrontendRules.styling_approach description ≠ "SCSS").
  { unfold FrontendRules.styling_approach.
    destruct (PyText.contains _ "css") eqn:Hcss; [done|].
    destruct (PyText.contains _ "scss") eqn:Hscss.
    - apply contains_tail in Hscss. congruence.
    - by destruct (PyText.contains _ "tailwind"). }
  split; [exact H|]. unfold FrontendRules.styles_file_path.
  apply String.eqb_neq in H. by rewrite H.
Qed.

(** X5. When [_process_task] hands a task to [_generate_generic_files],
    the file type computed there is never "component": such a description
    has been sent to [_generate_component] before. *)
Theorem generic_never_component (description : string) :
  FrontendRules.choose_generator description = FrontendRules.GenerateGeneric →
  FrontendRules.generic_file_type description ≠ "component".
Proof.
  unfold FrontendRules.choose_generator, FrontendRules.generic_file_type.
  destruct (PyText.contains _ "component"); [done|]. intros _.
  destruct (PyText.contains _ "util"); [done|].
  by destruct (PyText.contains _ "config").
Qed.

Lemma generic_never_component_witness :
  FrontendRules.choose_generator "Add date helpers and utilities"
    = FrontendRules.GenerateGeneric
  ∧ FrontendRules.generic_file_type "Add date helpers and utilities" ≠ "component".
Proof.
  split; [reflexivity|].
  exact (generic_never_component "Add date helpers and utilities" eq_refl).
Defined.

Lemma prefix_has_char (c : ascii) (sub s : string) :
  String.prefix sub s = true → has_char c sub = true → has_char c s = true.
Proof.
  revert s. induction sub as [|x sub IH]; intros s; [done|].
  destruct s as [|y s]; [done|].
  rewrite prefix_cons. intros [Hxy%Ascii.eqb_eq Hp]%andb_true_iff. subst y.
  cbn [has_char]. intros [->|H]%orb_true_iff; [done|].
  by rewrite (IH _ Hp H), orb_true_r.
Qed.

Lemma contains_has_char (c : ascii) (s sub : string) :
  PyText.contains s sub = true → has_char c sub = true → has_char c s = true.
Proof.
  induction s as [|x s IH]; cbn [PyText.contains].
  - rewrite orb_false_r. apply prefix_has_char.
  - intros [H|H]%orb_true_iff Hc; [by eapply prefix_has_char|].
    cbn [has_char]. by rewrite (IH H Hc), orb_true_r.
Qed.

Lemma lower_char_colon (c : ascii) :
  Ascii.eqb (PyText.lower_char c) ":"%char = Ascii.eqb c ":"%char.
Proof. destruct c as [[] [] [] [] [] [] [] []]; reflexivity. Qed.

Lemma has_colon_lower (s : string) :
  has_char ":"%char (PyText.lower s) = has_char ":"%char s.
Proof.
  induction s as [|c s IH]; [reflexivity|].
  cbn [PyText.lower has_char]. by rewrite lower_char_colon, IH.
Qed.

Lemma after_first_found (sep : ascii) (s : string) :
  has_char sep s = true → is_Some (PyText.after_first sep s).
Proof.
  induction s as [|c s IH]; [done|]. cbn [has_char PyText.after_first].
  destruct (Ascii.eqb c sep); [by eexists|]. exact IH.
Qed.

Lemma custom_path_step_relative (file_path line : string) :
  relative_path file_path →
  ∃ p, FrontendRules.custom_path_step file_path line = Ok p ∧ relative_path p.
Proof.
  intros Hrel. unfold FrontendRules.custom_path_step.
  destruct (PyText.contains (PyText.lower line) "file:"
            || PyText.contains (PyText.lower line) "path:") eqn:Hkey; [|by eexists].
  assert (Hcolon : has_char ":"%char line = true).
  { rewrite <-has_colon_lower.
    apply orb_true_iff in Hkey as [H|H]; by eapply contains_has_char. }
  destruct (after_first_found _ _ Hcolon) as [rest ->].
  destruct (negb (String.eqb (Py.strip rest) "")) eqn:Hne; cbn [andb]; [|by eexists].
  destruct (negb (Py.startswith (Py.strip rest) "/")) eqn:Hroot; [|by eexists].
  eexists. split; [reflexivity|]. split.
  - apply negb_true_iff in Hne. by apply String.eqb_neq.
  - by apply negb_true_iff.
Qed.

Lemma custom_path_loop_relative (lines : list string) (file_path : string) :
  relative_path file_path →
  ∃ p, FrontendRules.custom_path_loop lines file_path = Ok p ∧ relative_path p.
Proof.
  revert file_path. induction lines as [|line lines IH]; intros file_path Hrel.
  - by eexists.
  - cbn [FrontendRules.custom_path_loop].
    destruct (custom_path_step_relative file_path line Hrel) as (p & -> & Hp).
    by apply IH.
Qed.

(** X6. The path [_generate_generic_files] writes to is never empty and
    never starts with "/", whatever the description asks for; and the
    look-up of the text after the colon on a "file:" or "path:" line never
    fails. *)
Theorem generic_file_path_relative (description : string) (framework : value) :
  ∃ p, FrontendRules.generic_file_path description framework = Ok p
       ∧ p ≠ "" ∧ Py.startswith p "/" = false.
Proof.
  unfold FrontendRules.generic_file_path. apply custom_path_loop_relative.
  unfold FrontendRules.default_generic_path.
  repeat case_match; split; done.
Qed.

Lemma only_every (p : ascii → bool) (s : string) : PyText.every p (PyText.only p s) = true.
Proof.
  induction s as [|c s IH]; [reflexivity|]. cbn [PyText.only].
  destruct (p c) eqn:Hc; [|exact IH]. cbn [PyText.every]. by rewrite Hc, IH.
Qed.

Lemma only_keeps_every (p q : ascii → bool) (s : string) :
  PyText.every q s = true → PyText.every q (PyText.only p s) = true.
Proof.
  induction s as [|c s IH]; [done|]. cbn [PyText.every PyText.only].
  intros [Hc Hs]%andb_true_iff. destruct (p c); [|by apply IH].
  cbn [PyText.every]. by rewrite Hc, IH.
Qed.

Lemma lower_char_lowered (c : ascii) : is_lowered (PyText.lower_char c) = true.
Proof. destruct c as [[] [] [] [] [] [] [] []]; reflexivity. Qed.

Lemma lower_lowered (s : string) : PyText.every is_lowered (PyText.lower s) = true.
Proof.
  induction s as [|c s IH]; [reflexivity|].
  cbn [PyText.lower PyText.every]. by rewrite lower_char_lowered, IH.
Qed.

Lemma every_has_char (p : ascii → bool) (c : ascii) (s : string) :
  PyText.every p s = true → p c = false → has_char c s = false.
Proof.
  induction s as [|x s IH]; [done|]. cbn [PyText.every has_char].
  intros [Hx Hs]%andb_true_iff Hc. rewrite (IH Hs Hc), orb_false_r.
  apply Ascii.eqb_neq. intros ->. congruence.
Qed.

Lemma service_name_loop_clean (previous : option string) (words : list string)
    (service_name : string) :
  PyText.every service_char service_name = true →
  PyText.every is_lowered service_name = true →
  PyText.every service_char (FrontendRules.service_name_loop previous words service_name)
    = true
  ∧ PyText.every is_lowered (FrontendRules.service_name_loop previous words service_name)
    = true.
Proof.
  revert previous service_name.
  induction words as [|word words IH]; intros previous service_name Hc Hl; [done|].
  cbn [FrontendRules.service_name_loop]. apply IH.
  - destruct (FrontendRules.service_keyword word); [|done].
    destruct previous; [apply only_every | done].
  - destruct (FrontendRules.service_keyword word); [|done].
    destruct previous; [|done]. apply only_keeps_every, lower_lowered.
Qed.

(** X7. The service name taken from a description consists of
    alphanumeric characters and hyphens only and is in lower case; in
    particular it contains neither "/" nor ".", so that the file written
    by [_generate_service] lies in [src/services]. *)
Theorem service_name_clean (description : string) :
  PyText.every service_char (FrontendRules.extract_service_name description) = true
  ∧ PyText.every is_lowered (FrontendRules.extract_service_name description) = true
  ∧ has_char "/"%char (FrontendRules.extract_service_name description) = false
  ∧ has_char "."%char (FrontendRules.extract_service_name description) = false.
Proof.
  destruct (service_name_loop_clean None (PyText.words description) "api" eq_refl eq_refl)
    as [Hc Hl].
  unfold FrontendRules.extract_service_name.
  split; [exact Hc|]. split; [exact Hl|].
  split; by apply (every_has_char service_char).
Qed.

(** ** More on the coordinator and the handlers *)

(** X8. Along every run, also one that ends in [error], the progress
    written to the record never decreases and stays between 0 and 1. *)
Theorem run_progress_monotone_bounded agents project_id request reg d :
  StronglySorted (λ e e', (progress_of_entry e <= progress_of_entry e')%Q)
    (history (run agents project_id request reg d))
  ∧ Forall (λ e, (0 <= progress_of_entry e)%Q ∧ (progress_of_entry e <= 1)%Q)
      (history (run agents project_id request reg d)).
Proof. split; [apply progress_monotone | apply progress_in_range]. Qed.


Lemma run_keeps_name agents project_id request reg d :
  p_name (project (run agents project_id request reg d)) = project_name request.
Proof. run_cases; record_simpl; reflexivity. Qed.

(** X10. A run changes no other entry of the registry, keeps the
    identifier and the name of its own record, and leaves that record in
    the registry: a status query after the run answers with the record the
    run left. *)
Theorem run_touches_own_entry agents project_id request reg d :
  (∀ other, other ≠ project_id →
     (submit_and_run agents project_id request reg d).1 !! other = reg !! other)
  ∧ p_id (project (run agents project_id request reg d)) = project_id
  ∧ p_name (project (run agents project_id request reg d)) = project_name request
  ∧ get_project_status project_id (submit_and_run agents project_id request reg d).1
    = Success (status_answer project_id (project (run agents project_id request reg d))).
Proof.
  split; [|split; [|split]].
  - intros other Hne.
    unfold submit_and_run, process_project_request, create_project.
    rewrite lookup_insert_eq. destruct (pipeline _ _ _ _) as [r st]. cbn [fst].
    by rewrite !lookup_insert_ne.
  - run_cases; record_simpl; reflexivity.
  - apply run_keeps_name.
  - unfold get_project_status. by rewrite registry_after_run.
Qed.

(** X11. After a run, the download handler answers with the project
    directory exactly when the run ended with status [completed], and with
    400 otherwise; it never answers 404. *)
Theorem download_after_run agents project_id request reg d :
  download_project project_id (submit_and_run agents project_id request reg d).1
  = if decide (p_status (project (run agents project_id request reg d)) = completed)
    then Success (project_path (project_name request))
    else HTTPException 400 "Project not ready for download".
Proof.
  unfold download_project. by rewrite registry_after_run, run_keeps_name.
Qed.

(** X12. When the project is deleted before its background task starts,
    the task does nothing: the registry and the disk stay as the deletion
    left them, and the record is not created again.  A deletion that fails
    leaves the registry as it was, and the task will run. *)
Theorem run_after_delete agents project_id request reg d :
  let '(answer, reg', d') := delete_project project_id (create_project project_id request reg) d in
  match answer with
  | Success _ =>
      (process_project_request agents project_id request reg' d').1 = reg'
      ∧ world (process_project_request agents project_id request reg' d').2 = d'
      ∧ history (process_project_request agents project_id request reg' d').2 = []
      ∧ get_project_status project_id
          (process_project_request agents project_id request reg' d').1
        = HTTPException 404 "Project not found"
  | _ => reg' = create_project project_id request reg
  end.
Proof.
  unfold delete_project, create_project. rewrite lookup_insert_eq.
  assert (Hgone : ∀ d',
            (process_project_request agents project_id request
               (delete project_id (<[project_id := new_project project_id request]> reg)) d').1
            = delete project_id (<[project_id := new_project project_id request]> reg)
            ∧ world (process_project_request agents project_id request
                       (delete project_id (<[project_id := new_project project_id request]> reg))
                       d').2 = d'
            ∧ history (process_project_request agents project_id request
                         (delete project_id
                            (<[project_id := new_project project_id request]> reg)) d').2 = []
            ∧ get_project_status project_id
                (process_project_request agents project_id request
                   (delete project_id (<[project_id := new_project project_id request]> reg))
                   d').1
              = HTTPException 404 "Project not found").
  { intros d'. unfold process_project_request, get_project_status.
    rewrite !lookup_delete_eq. cbn [fst snd world history]. by rewrite lookup_delete_eq. }
  destruct (Os.path_exists _ d); [|apply Hgone].
  destruct (Os.rmtree _ d) as [[[]|msg] d']; [apply Hgone|reflexivity].
Qed.

(** X13. When the plan stage has returned and the architecture stage
    raises, no later stage is started: the run is the same whatever the
    other collaborators are, and the disk is left as the failed call left
    it. *)
Theorem architecture_failure_stops_pipeline agents agents' project_id request reg d
    d0 plan d1 msg d2 :
  create_project_plan agents' = create_project_plan agents →
  create_architecture agents' = create_architecture agents →
  clean_project_dir (project_name request) d = (Ok tt, d0) →
  create_project_plan agents project_id request d0 = (Ok plan, d1) →
  create_architecture agents project_id plan d1 = (Raise msg, d2) →
  run agents' project_id request reg d = run agents project_id request reg d
  ∧ world (run agents project_id request reg d) = d2.
Proof.
  intros Hp Ha Hclean Hplan Harch. unfold_run. run_simpl.
  rewrite Hclean. run_simpl.
  rewrite Hp, Ha, Hplan. run_simpl. rewrite Harch. run_simpl.
  split; reflexivity.
Qed.

Lemma architecture_failure_stops_pipeline_witness :
  run (Scripted.play (Scripted.architecture_fails "AdapterError: quota exceeded"))
    "p1" (Scripted.demo false) ∅ ∅
  = run (with_documentation
           (Scripted.play (Scripted.architecture_fails "AdapterError: quota exceeded"))
           (λ _ _ _ _ _ _ _, raise "never called"))
      "p1" (Scripted.demo false) ∅ ∅.
Proof.
  symmetry.
  exact (proj1 (architecture_failure_stops_pipeline
                  (with_documentation
                     (Scripted.play (Scripted.architecture_fails "AdapterError: quota exceeded"))
                     (λ _ _ _ _ _ _ _, raise "never called"))
                  (Scripted.play (Scripted.architecture_fails "AdapterError: quota exceeded"))
                  "p1" (Scripted.demo false) ∅ ∅ (clean_project_dir "demo" ∅).2
                  (Scripted.artifact "project_overview") (clean_project_dir "demo" ∅).2
                  "AdapterError: quota exceeded" (clean_project_dir "demo" ∅).2
                  eq_refl eq_refl clean_project_dir_demo eq_refl eq_refl)).
Defined.

(** X25. When the project directory cannot be set up (lines 163-168), the
    run ends at once with status [error] and progress 0.0, the message of
    the failure under [details["error"]], and the disk as the failed call
    left it; no stage is called, so that the run is the same whatever the
    collaborators are. *)
Theorem clean_failure_ends_run agents project_id request reg d msg d0 :
  clean_project_dir (project_name request) d = (Raise msg, d0) →
  run_marks agents project_id request reg d
  = [(AtStart, initializing, 0.0%Q); (Failed, error, 0.0%Q)]
  ∧ p_details (project (run agents project_id request reg d)) !! "error" = Some (VStr msg)
  ∧ world (run agents project_id request reg d) = d0
  ∧ ∀ agents', run agents' project_id request reg d = run agents project_id request reg d.
Proof.
  intros Hclean. unfold run_marks. repeat split; try intros agents';
    unfold_run; run_simpl; rewrite Hclean; run_simpl; record_simpl;
    first [reflexivity | apply lookup_insert_eq].
Qed.

(** The project ["demo/README.md"] when the project ["demo"] has its
    README: the path of the project is a regular file. *)
Lemma clean_failure_ends_run_witness :
  clean_project_dir "demo/README.md" disk_with_readme
  = (Raise "[Errno 20] Not a directory: '/app/projects/demo/README.md'", disk_with_readme)
  ∧ run_marks (Scripted.play Scripted.all_good) "p2" (named "demo/README.md") ∅
      disk_with_readme
    = [(AtStart, initializing, 0.0%Q); (Failed, error, 0.0%Q)].
Proof.
  assert (Hclean : clean_project_dir (project_name (named "demo/README.md")) disk_with_readme
                   = (Raise "[Errno 20] Not a directory: '/app/projects/demo/README.md'",
                      disk_with_readme)) by reflexivity.
  split; [exact Hclean|].
  exact (proj1 (clean_failure_ends_run (Scripted.play Scripted.all_good) "p2"
                  (named "demo/README.md") ∅ disk_with_readme _ _ Hclean)).
Defined.

(** X26. When the project directory has been set up (lines 163-168), no
    document has been created, and the documents that are gone are those
    at or below the directory the path of the project led to: a project
    submitted under the name of an earlier one discards the documents of
    the earlier one, and a name that leads to a directory above those of
    other projects discards theirs.  The set-up does not return when the
    path of the project is a regular file. *)
Theorem set_up_discards_documents (name : string) (d d0 : disk) :
  clean_project_dir name d = (Ok tt, d0) →
  match Os.stat d (project_path name) with
  | Some (q, Dir) =>
      ∀ k doc, d0 !! k = Some (File doc) ↔ d !! k = Some (File doc) ∧ ¬ q `prefix_of` k
  | Some (q, File _) => False
  | None => ∀ k doc, d0 !! k = Some (File doc) ↔ d !! k = Some (File doc)
  end.
Proof.
  unfold clean_project_dir, mbind, M_bind, bind, Os.path_exists.
  destruct (Os.stat d (project_path name)) as [[q n]|] eqn:Hstat.
  - destruct (Os.rmtree (project_path name) d) as [[[]|msg] d1] eqn:Hrm; [|discriminate].
    apply rmtree_cases in Hrm. rewrite Hstat in Hrm.
    destruct n as [doc|]; [by destruct Hrm|].
    destruct Hrm as (_ & Hgone & _).
    destruct (Os.makedirs (project_path name) d1) as [[[]|msg] d2] eqn:Hmk; [|discriminate].
    intros [= <-]. apply makedirs_grows in Hmk. intros k doc.
    rewrite (grows_file d1 d2) by done. rewrite Hgone.
    destruct (decide (q `prefix_of` k)); [|tauto].
    split; [discriminate|]. by intros [_ []].
  - destruct (Os.makedirs (project_path name) d) as [[[]|msg] d2] eqn:Hmk; [|discriminate].
    intros [= <-]. apply makedirs_grows in Hmk. intros k doc. by apply grows_file.
Qed.

(** A project submitted under the empty name when the project ["demo"]
    has its README: the path of the project is the projects root. *)
Lemma set_up_discards_documents_witness :
  clean_project_dir "" disk_with_readme = (Ok tt, (clean_project_dir "" disk_with_readme).2)
  ∧ read_document "demo" "README.md" disk_with_readme = Some (Text "# demo")
  ∧ ∀ k doc,
      (clean_project_dir "" disk_with_readme).2 !! k = Some (File doc)
      ↔ disk_with_readme !! k = Some (File doc) ∧ ¬ ["app"; "projects"] `prefix_of` k.
Proof.
  assert (Hclean : clean_project_dir "" disk_with_readme
                   = (Ok tt, (clean_project_dir "" disk_with_readme).2)) by reflexivity.
  split; [exact Hclean|]. split; [reflexivity|].
  pose proof (set_up_discards_documents "" disk_with_readme _ Hclean) as H.
  assert (Hstat : Os.stat disk_with_readme (project_path "")
                  = Some (["app"; "projects"], Dir)) by reflexivity.
  rewrite Hstat in H. exact H.
Defined.

(** X15. Two projects submitted under one name share one directory:
    deleting the first removes that directory, while the second stays in
    the registry, and its download is still answered with the path of the
    removed directory when it had completed. *)
Theorem delete_removes_shared_directory (a b : string) (reg : gmap string ProjectState)
    (d : disk) (pa pb : ProjectState) :
  a ≠ b → reg !! a = Some pa → reg !! b = Some pb → p_name pa = p_name pb →
  (delete_project a reg d).1.2 !! b = Some pb
  ∧ (∀ answer, (delete_project a reg d).1.1 = Success answer →
       Os.path_exists (project_path (p_name pb)) (delete_project a reg d).2 = false)
  ∧ (p_status pb = completed →
     download_project b (delete_project a reg d).1.2 = Success (project_path (p_name pb))).
Proof.
  intros Hab Ha Hb Hname.
  assert (Hkept : (delete_project a reg d).1.2 !! b = Some pb).
  { unfold delete_project. rewrite Ha.
    destruct (Os.path_exists _ d); [|cbn [fst snd]; by rewrite lookup_delete_ne].
    destruct (Os.rmtree _ d) as [[[]|msg] d']; cbn [fst snd]; [|done].
    by rewrite lookup_delete_ne. }
  split; [exact Hkept|]. split.
  - intros answer. unfold delete_project. rewrite Ha, <-Hname.
    destruct (Os.path_exists _ d) eqn:Hex; [|done].
    destruct (Os.rmtree _ d) as [[[]|msg] d'] eqn:Hrm; [|discriminate].
    intros _. cbn [snd]. apply rmtree_cases in Hrm.
    unfold Os.path_exists in Hex.
    destruct (Os.stat d (project_path (p_name pa))) as [[q [doc|]]|]; [| |done].
    + by destruct Hrm.
    + by destruct Hrm as (_ & _ & Hgone).
  - intros Hdone. unfold download_project. rewrite Hkept. by rewrite decide_True.
Qed.

Lemma delete_removes_shared_directory_witness :
  Os.path_exists (project_path "demo")
    (delete_project "p1"
       (create_project "p2" (Scripted.demo true)
          (create_project "p1" (Scripted.demo false) ∅))
       disk_with_readme).2 = false
  ∧ (delete_project "p1"
       (create_project "p2" (Scripted.demo true)
          (create_project "p1" (Scripted.demo false) ∅))
       disk_with_readme).1.2 !! "p2"
    = Some (new_project "p2" (Scripted.demo true)).
Proof.
  destruct (delete_removes_shared_directory "p1" "p2"
              (create_project "p2" (Scripted.demo true)
                 (create_project "p1" (Scripted.demo false) ∅))
              disk_with_readme
              (new_project "p1" (Scripted.demo false))
              (new_project "p2" (Scripted.demo true)))
    as (Hkept & Hgone & _); [done|reflexivity|reflexivity|reflexivity|].
  split; [|exact Hkept].
  apply (Hgone "Project deleted successfully"). reflexivity.
Defined.

(** ** More on the executors *)

(** X16. On tasks whose priority can be used as a dictionary key, line 67
    of both executors is a stable sort on the rank: the result is a
    rearrangement of the tasks, in non-decreasing rank, and the tasks of
    each rank keep their original order. *)
Theorem sorted_tasks_stable (tasks : list task) :
  Forall priority_hashable tasks →
  ∃ ordered, sorted_tasks tasks = Ok ordered
    ∧ ordered ≡ₚ tasks
    ∧ StronglySorted (λ a b, rank a ≤ rank b) ordered
    ∧ ∀ r, filter (λ t, rank t = r) ordered = filter (λ t, rank t = r) tasks.
Proof. apply sorted_tasks_spec. Qed.

Lemma sorted_tasks_stable_witness :
  Forall priority_hashable
    [Demo.a_task "T1" "a" "low"; Demo.a_task "T2" "b" "urgent";
     Demo.a_task "T3" "c" "high"; Demo.a_task "T4" "d" "low"]
  ∧ ∃ ordered,
      sorted_tasks [Demo.a_task "T1" "a" "low"; Demo.a_task "T2" "b" "urgent";
                    Demo.a_task "T3" "c" "high"; Demo.a_task "T4" "d" "low"]
      = Ok ordered
      ∧ StronglySorted (λ a b, rank a ≤ rank b) ordered.
Proof.
  assert (H : Forall priority_hashable
                [Demo.a_task "T1" "a" "low"; Demo.a_task "T2" "b" "urgent";
                 Demo.a_task "T3" "c" "high"; Demo.a_task "T4" "d" "low"]).
  { repeat constructor. }
  split; [exact H|].
  destruct (sorted_tasks_stable _ H) as (ordered & Hs & _ & Hsorted & _).
  exists ordered. by split.
Defined.

Lemma priority_key_ok (t : task) (k : nat) : priority_key t = Ok k → priority_hashable t.
Proof.
  unfold priority_key, priority_hashable.
  destruct (t !! "priority") as [[]|]; cbn; done.
Qed.

Lemma decorate_ok {A} (key : A → outcome nat) (xs : list A) (kl : list (nat * A)) :
  decorate key xs = Ok kl → Forall (λ a, ∃ k, key a = Ok k) xs.
Proof.
  revert kl. induction xs as [|a xs IH]; intros kl; [constructor|].
  cbn [decorate]. destruct (key a) as [k|msg] eqn:Ha; [|discriminate].
  destruct (decorate key xs) as [kl'|msg]; [|discriminate]. intros _.
  constructor; [by eexists | by eapply IH].
Qed.

(** X17. Sorting the tasks fails exactly when the ["priority"] entry of
    some task is a list or a dictionary. *)
Theorem sorted_tasks_ok_iff (tasks : list task) :
  (∃ ordered, sorted_tasks tasks = Ok ordered) ↔ Forall priority_hashable tasks.
Proof.
  split.
  - intros [ordered H]. unfold sorted_tasks, sorted in H.
    destruct (decorate priority_key tasks) as [kl|msg] eqn:Hd; [|discriminate].
    apply decorate_ok in Hd. eapply Forall_impl; [exact Hd|].
    intros t [k Hk]. by eapply priority_key_ok.
  - intros H. destruct (sorted_tasks_spec tasks H) as (ordered & Hs & _). by exists ordered.
Qed.




(** X20. When the generator of the first task raises, the frontend
    executor raises the same message and stops there: no later task is
    processed, no configuration file and no results document is written;
    the disk is left as the failed generator left it. *)
Theorem frontend_stops_at_failure
    (process_task : string → task → value → M disk generated)
    (create_config_files : string → value → M disk unit)
    (project_id name : string) (tasks : list task) (architecture : value)
    (t : task) (rest : list task) (msg : string) (d d0 d1 : disk) :
  Os.ensure_dir (Os.join (project_path name) "frontend") d = (Ok tt, d0) →
  sorted_tasks tasks = Ok (t :: rest) →
  process_task name t architecture d0 = (Raise msg, d1) →
  FrontendAgent.implement_frontend process_task create_config_files
    project_id name tasks architecture d = (Raise msg, d1).
Proof.
  intros Hdir Hsorted Hfail.
  unfold FrontendAgent.implement_frontend, mbind, M_bind, bind, lift_outcome.
  rewrite Hdir, Hsorted. cbn [for_acc]. unfold mbind, M_bind, bind. by rewrite Hfail.
Qed.

Lemma frontend_stops_at_failure_witness :
  FrontendAgent.implement_frontend (λ _ _ _, raise "AdapterError: timeout")
    Demo.fe_create_config_files "p1" "demo"
    [Demo.a_task "FE-1" "todo list" "low"; Demo.a_task "FE-2" "layout" "high"] (VDict ∅) ∅
  = (Raise "AdapterError: timeout",
     (Os.ensure_dir (Os.join (project_path "demo") "frontend") ∅).2).
Proof.
  apply (frontend_stops_at_failure _ _ _ _ _ _ (Demo.a_task "FE-2" "layout" "high")
           [Demo.a_task "FE-1" "todo list" "low"] _ _
           (Os.ensure_dir (Os.join (project_path "demo") "frontend") ∅).2); reflexivity.
Defined.

(** X21. The plan stage fails with the failure of the model's answer,
    leaving the disk as it is; or it fails because the plan cannot be
    stored, having written no document; or it returns the plan, which is
    then stored as [project_plan.json] under the project name, every other
    document being left as it was. *)
Theorem create_project_plan_cases
    (plan_response : string → ProjectRequest → outcome dict)
    (project_id : string) (request : ProjectRequest) (d : disk) :
  match plan_response project_id request with
  | Raise msg =>
      ProjectManager.create_project_plan plan_response project_id request d = (Raise msg, d)
  | Ok plan =>
      let '(r, d') := ProjectManager.create_project_plan plan_response project_id request d in
      match r with
      | Raise _ => grows d d'
      | Ok returned =>
          returned = plan
          ∧ ∃ q, Os.stat d' (FileManager.document_path (project_name request)
                               "project_plan.json")
                 = Some (q, File (Json (VDict plan)))
                 ∧ ∀ k doc, k ≠ q → d' !! k = Some (File doc) ↔ d !! k = Some (File doc)
      end
  end.
Proof.
  unfold ProjectManager.create_project_plan, FileManager.write_json, mbind, M_bind, bind,
    lift_outcome, mret, M_ret, ret.
  destruct (plan_response project_id request) as [plan|msg]; [|done].
  destruct (Os.ensure_dir _ d) as [[[]|msg] d0] eqn:Hdir; apply ensure_dir_grows in Hdir;
    [|done].
  destruct (FileManager.write _ _ _ d0) as [[[]|msg] d1] eqn:Hw.
  - split; [done|].
    apply write_returns in Hw as (q & d2 & Hgrows & _ & -> & Hstat & _).
    exists q. split; [exact Hstat|]. intros k doc Hk.
    rewrite lookup_insert_ne by done.
    rewrite (grows_file d0 d2) by done. by apply grows_file.
  - apply write_raises in Hw. by eapply grows_trans.
Qed.

(** X22. When the finalize stage returns, the report it returns is stored
    as [final_report.json] and the text rendered from that report as
    [README.md], both under the project name.  When it raises, it has
    written no document, or the report only: the README is written
    last. *)
Theorem finalize_project_cases
    (report_response : string → string → value → outcome dict)
    (readme_content : string → dict → outcome string)
    (project_id name : string) (d : disk) :
  let '(r, d') :=
    ProjectManager.finalize_project report_response readme_content project_id name d in
  match r with
  | Ok report =>
      read_document name "final_report.json" d' = Some (Json (VDict report))
      ∧ ∃ readme, readme_content name report = Ok readme
                  ∧ read_document name "README.md" d' = Some (Text readme)
  | Raise _ =>
      grows d d'
      ∨ ∃ report d1,
          FileManager.write_json name "final_report.json" (VDict report) d = (Ok tt, d1)
          ∧ grows d1 d'
  end.
Proof.
  unfold ProjectManager.finalize_project, FileManager.read_json,
    FileManager.get_project_files, FileManager.write_json, FileManager.write_file,
    mbind, M_bind, bind, lift_outcome, mret, M_ret, ret.
  set (plan_doc := Os.stat d (FileManager.document_path name "project_plan.json")).
  destruct plan_doc as [[? [[?|?]|]]|]; try (left; apply grows_refl).
  set (arch_doc := Os.stat d (FileManager.document_path name "architecture.json")).
  destruct arch_doc as [[? [[?|?]|]]|]; try (left; apply grows_refl).
  destruct (report_response _ _ _) as [report|msg]; [|left; apply grows_refl].
  destruct (readme_content name report) as [readme|msg] eqn:Hreadme;
    [|left; apply grows_refl].
  destruct (FileManager.write name "final_report.json" _ d) as [[[]|msg] d1] eqn:Hw1;
    [|left; by apply write_raises in Hw1].
  destruct (FileManager.write name "README.md" _ d1) as [[[]|msg] d2] eqn:Hw2;
    [|right; exists report, d1; split; [done|by apply write_raises in Hw2]].
  split.
  - apply write_returns in Hw1 as (q1 & e1 & _ & _ & _ & Hstat1 & Hlast1).
    apply write_returns in Hw2 as (q2 & e2 & Hgrows2 & Hdir2 & -> & _ & Hlast2).
    unfold read_document.
    rewrite (stat_insert_file e2 _ q1 q2 (File (Json (VDict report)))); [done|done| |].
    + intros ->. rewrite Hlast1 in Hlast2. unfold FileManager.document_path in Hlast2.
      rewrite !names_join in Hlast2 by done.
      change (Os.names "final_report.json") with ["final_report.json"] in Hlast2.
      change (Os.names "README.md") with ["README.md"] in Hlast2.
      by rewrite !last_snoc in Hlast2.
    + by apply (stat_grows d1).
  - exists readme. split; [done|]. by apply read_document_written in Hw2.
Qed.

(** X23. The architecture stage stores its document under the
    ["project_name"] entry of the plan when that entry is a string, and
    under [project_<id>] when the plan has no such entry; every other
    document is left as it was.  When the model's answer fails, the stage
    fails with it and leaves the disk as it is; when the document cannot
    be stored, the stage fails and has written no document. *)
Theorem create_architecture_location
    (architecture_response : string → dict → outcome dict)
    (project_id : string) (project_plan : dict) (d : disk) :
  match architecture_response project_id project_plan with
  | Raise msg =>
      ProjectManager.create_architecture architecture_response project_id project_plan d
      = (Raise msg, d)
  | Ok architecture =>
      ∀ name,
        project_plan !! "project_name" = Some (VStr name)
        ∨ project_plan !! "project_name" = None ∧ name = "project_" +:+ project_id →
        let '(r, d') :=
          ProjectManager.create_architecture architecture_response project_id
            project_plan d in
        match r with
        | Raise _ => grows d d'
        | Ok returned =>
            returned = architecture
            ∧ read_document name "architecture.json" d' = Some (Json (VDict architecture))
            ∧ ∃ q, Os.stat d' (FileManager.document_path name "architecture.json")
                   = Some (q, File (Json (VDict architecture)))
                   ∧ ∀ k doc, k ≠ q →
                       d' !! k = Some (File doc) ↔ d !! k = Some (File doc)
        end
  end.
Proof.
  unfold ProjectManager.create_architecture, FileManager.write_json, mbind, M_bind, bind,
    lift_outcome, mret, M_ret, ret, get_or.
  destruct (architecture_response project_id project_plan) as [a|msg]; [|done].
  intros name Hname.
  assert (Hdflt : default (VStr ("project_" +:+ project_id)) (project_plan !! "project_name")
                  = VStr name).
  { by destruct Hname as [->|[-> ->]]. }
  rewrite Hdflt.
  destruct (FileManager.write _ _ _ d) as [[[]|msg] d1] eqn:Hw.
  - split; [done|]. split; [by apply read_document_written in Hw|].
    apply write_returns in Hw as (q & d0 & Hgrows & _ & -> & Hstat & _).
    exists q. split; [exact Hstat|]. intros k doc Hk.
    rewrite lookup_insert_ne by done. by apply grows_file.
  - by apply write_raises in Hw.
Qed.

Lemma create_architecture_location_witness :
  Demo.plan !! "project_name" = None
  ∧ read_document "project_p1" "architecture.json" architecture_alone.2
    = Some (Json (VDict Demo.architecture))
  ∧ read_document "demo" "architecture.json" architecture_alone.2 = None.
Proof.
  split; [reflexivity|]. split; [|reflexivity].
  pose proof (create_architecture_location (λ _ _, Ok Demo.architecture) "p1"
                Demo.plan ∅ "project_p1" (or_intror (conj eq_refl eq_refl))) as H.
  fold architecture_alone in H.
  assert (Hok : is_ok architecture_alone.1 = true) by reflexivity.
  destruct architecture_alone as [[returned|msg] d']; [|discriminate Hok].
  by destruct H as (_ & H & _).
Defined.

(** X24. A project that has just been submitted answers a status query
    with status "initializing", progress 0.0 and the fields of the request
    with an empty list of created files; its download is refused with 400;
    and the answers for the other identifiers are what they were. *)
Theorem status_after_submit (project_id : string) (request : ProjectRequest)
    (reg : gmap string ProjectState) :
  (∃ answer,
     get_project_status project_id (create_project project_id request reg) = Success answer
     ∧ project_id_of answer = project_id
     ∧ status_of answer = "initializing"
     ∧ progress_of answer = 0.0%Q
     ∧ details_of answer !! "description" = Some (VStr (description request))
     ∧ details_of answer !! "frontend_framework"
       = Some (opt_str (frontend_framework request))
     ∧ details_of answer !! "backend_framework"
       = Some (opt_str (backend_framework request))
     ∧ details_of answer !! "database" = Some (opt_str (database request))
     ∧ details_of answer !! "include_ai" = Some (opt_bool (include_ai request))
     ∧ details_of answer !! "deployment_target"
       = Some (opt_str (deployment_target request))
     ∧ details_of answer !! "created_files" = Some (VList [])
     ∧ dom (details_of answer)
       = list_to_set ["description"; "frontend_framework"; "backend_framework";
                      "database"; "include_ai"; "deployment_target"; "created_files"])
  ∧ download_project project_id (create_project project_id request reg)
    = HTTPException 400 "Project not ready for download"
  ∧ (∀ other, other ≠ project_id →
       get_project_status other (create_project project_id request reg)
       = get_project_status other reg
       ∧ download_project other (create_project project_id request reg)
         = download_project other reg).
Proof.
  unfold get_project_status, download_project, create_project.
  split; [|split].
  - rewrite lookup_insert_eq. eexists. split; [reflexivity|].
    cbn [project_id_of status_of progress_of details_of new_project
         p_status p_progress p_details status_name].
    repeat (split; [reflexivity|]).
    rewrite !dom_insert_L, dom_empty_L. cbn [list_to_set foldr]. set_solver.
  - by rewrite lookup_insert_eq.
  - intros other Hne. by rewrite !lookup_insert_ne.
Qed.
